(** * The ML training pipeline of [src/ml/train.py]

    A shallow embedding of [train_model] and of the module constant
    [FEATURE_NAMES], with the file system, standard output and clock the
    script touches threaded through a state-and-exception monad.  The
    third-party calls (pandas' CSV parser, scikit-learn's IsolationForest,
    skl2onnx, protobuf, numpy's seeded generator) are the fields of the
    [Libs] class: the pipeline is verified for every implementation of
    them. *)

From Stdlib Require Import ZArith QArith Qround Floats.SpecFloat Permutation Lia.
From stdpp Require Import gmap strings list fin_maps pretty.

#[local] Set Warnings "-register-all".

Local Open Scope string_scope.
Local Open Scope nat_scope.
Local Open Scope list_scope.

(** ** Values *)

(** A 64-bit float, as numpy and Python hold it. *)
Abbreviation float := spec_float.

Definition is_nan (x : float) : bool :=
  match x with S754_nan => true | _ => false end.

Definition is_inf (x : float) : bool :=
  match x with S754_infinity _ => true | _ => false end.

Definition is_finite (x : float) : bool := negb (is_nan x || is_inf x).

(** [np.nan] *)
Definition np_nan : float := S754_nan.

(** Python exceptions: the class name and the message. *)
Inductive exn := Exn (class_name : string) (msg : string).

Inductive result (A : Type) :=
| Ok (a : A)
| Raise (e : exn).
Arguments Ok {A} a.
Arguments Raise {A} e.

(** [int(x)] on a float: truncation toward zero; [OverflowError] on an
    infinity and [ValueError] on a NaN. *)
Definition py_int (x : float) : result Z :=
  match x with
  | S754_zero _ => Ok 0%Z
  | S754_finite s m e =>
      let magnitude := Z.shiftl (Z.pos m) e in
      Ok (if s then (- magnitude)%Z else magnitude)
  | S754_infinity _ => Raise (Exn "OverflowError" "cannot convert float infinity to integer")
  | S754_nan => Raise (Exn "ValueError" "cannot convert float NaN to integer")
  end.

(** [repr(x)] of a float given as the decimal it was written as: [0.3],
    [1.0], [-2.25]. *)
Fixpoint decimals (fuel : nat) (num den : Z) : string :=
  match fuel with
  | 0 => ""
  | S fuel' =>
      let digit := (10 * num / den)%Z in
      let rest := (10 * num mod den)%Z in
      pretty digit +:+ (if (rest =? 0)%Z then "" else decimals fuel' rest den)
  end.

Definition repr_float (q : Q) : string :=
  let den := Z.pos (Qden q) in
  let magnitude := Z.abs (Qnum q) in
  (if (Qnum q <? 0)%Z then "-" else "")
  +:+ pretty (magnitude / den)%Z +:+ "." +:+ decimals 17 (magnitude mod den)%Z den.

(** The values [json.dump] receives: a dict keeps its insertion order. *)
Inductive pyval :=
| PStr (s : string)
| PInt (z : Z)
| PFloat (x : float)
| PList (l : list pyval)
| PDict (d : list (string * pyval)).

Definition dict_keys (v : pyval) : list string :=
  match v with PDict d => map fst d | _ => [] end.

Definition dict_get (k : string) (v : pyval) : option pyval :=
  match v with
  | PDict d => snd <$> List.find (λ kv, String.eqb (fst kv) k) d
  | _ => None
  end.

(** ** The Feature Schema *)

Definition FEATURE_NAMES : list string :=
  [ "REQUEST_TIME_S";
    "BYTES_SENT";
    "HTTP_STATUS_4XX";
    "HTTP_STATUS_5XX";
    "IS_UA_MISSING";
    "IS_UA_HEADLESS";
    "IS_UA_KNOWN_BAD";
    "IS_UA_CYCLING";
    "IS_PATH_NEW_FOR_IP";
    "IP_REQ_TIME_ZSCORE";
    "IP_BYTES_SENT_ZSCORE";
    "IP_ERROR_EVENT_ZSCORE";
    "IP_REQ_VOL_ZSCORE";
    "PATH_REQ_TIME_ZSCORE";
    "PATH_BYTES_SENT_ZSCORE";
    "PATH_ERROR_EVENT_ZSCORE";
    "SESSION_DURATION_S";
    "SESSION_REQ_COUNT";
    "SESSION_UNIQUE_PATH_COUNT";
    "SESSION_ERROR_4XX_COUNT";
    "SESSION_ERROR_5XX_COUNT";
    "SESSION_FAILED_LOGIN_COUNT";
    "SESSION_AVG_TIME_BETWEEN_REQS_S";
    "SESSION_POST_TO_GET_RATIO";
    "SESSION_UA_CHANGE_COUNT";
    "SESSION_BYTES_SENT_MEAN";
    "SESSION_REQ_TIME_MEAN" ].

(** ** Data frames *)

(** A column label: [read_csv(header=None)] numbers the columns, the
    script then renames them. *)
Inductive label :=
| LInt (i : nat)
| LStr (s : string).

(** A cell of a frame.  A column that [read_csv] could convert holds
    floats; a column with a field it could not convert (a word, or a
    literal too large for a double such as [1e400]) has object dtype and
    holds every field as the text it was, whatever that text reads. *)
Inductive cell :=
| Num (x : float)
| Text (s : string).

(** One sample: its index label (the row number in the file, which
    [dropna] and the split keep) and its cells. *)
Record row := Row { row_label : nat; cells : list cell }.

Record DataFrame := Frame { columns : list label; rows : list row }.

(** [len(df)] *)
Definition len (df : DataFrame) : nat := length (rows df).

(** [df.shape[1]] *)
Definition shape1 (df : DataFrame) : nat := length (columns df).

(** [df.columns = names] *)
Definition set_columns (names : list string) (df : DataFrame) : DataFrame :=
  Frame (map LStr names) (rows df).

(** [df.replace([np.inf, -np.inf], np.nan, inplace=True)]: a cell equal
    to an infinity becomes NaN; no text is equal to one. *)
Definition replace_cell (c : cell) : cell :=
  match c with
  | Num x => if is_inf x then Num np_nan else c
  | Text _ => c
  end.

Definition replace_row (r : row) : row :=
  Row (row_label r) (map replace_cell (cells r)).

Definition replace_inf (df : DataFrame) : DataFrame :=
  Frame (columns df) (map replace_row (rows df)).

(** [pd.isna]: the float NaN is missing; a text never is. *)
Definition isna (c : cell) : bool :=
  match c with
  | Num x => is_nan x
  | Text _ => false
  end.

(** [df.dropna(inplace=True)]: a row with a NaN in any column goes. *)
Definition has_na (r : row) : bool := existsb isna (cells r).

Definition dropna (df : DataFrame) : DataFrame :=
  Frame (columns df) (List.filter (λ r, negb (has_na r)) (rows df)).

(** Lines 70-71 of the script together. *)
Definition clean (df : DataFrame) : DataFrame := dropna (replace_inf df).

(** A cell that is a float NaN or infinity. *)
Definition is_non_finite (c : cell) : bool :=
  match c with
  | Num x => negb (is_finite x)
  | Text _ => false
  end.

(** A row with a float NaN or infinity in some cell, and the number of
    such rows. *)
Definition has_non_finite (r : row) : bool := existsb is_non_finite (cells r).

Definition count_non_finite (df : DataFrame) : nat :=
  length (List.filter has_non_finite (rows df)).

(** The texts Python's [float] reads as an infinity or a NaN: an optional
    sign, then [inf], [infinity] or [nan] in any letter case. *)
Definition lower (c : Ascii.ascii) : Ascii.ascii :=
  let n := Ascii.nat_of_ascii c in
  if (65 <=? n) && (n <=? 90) then Ascii.ascii_of_nat (n + 32) else c.

Fixpoint lowercase (s : string) : string :=
  match s with
  | EmptyString => EmptyString
  | String c s' => String (lower c) (lowercase s')
  end.

Definition unsigned (s : string) : string :=
  match s with
  | String c s' =>
      if Ascii.eqb c (Ascii.ascii_of_nat 43) || Ascii.eqb c (Ascii.ascii_of_nat 45)
      then s' else s
  | EmptyString => s
  end.

Definition reads_non_finite (s : string) : bool :=
  let word := lowercase (unsigned s) in
  String.eqb word "inf" || String.eqb word "infinity" || String.eqb word "nan".

(** A cell whose value is not a finite number: a float NaN or infinity,
    or a text that reads as one. *)
Definition holds_non_finite_value (c : cell) : bool :=
  match c with
  | Num x => negb (is_finite x)
  | Text s => reads_non_finite s
  end.

(** The number of rows with such a cell. *)
Definition count_holding_non_finite (df : DataFrame) : nat :=
  length (List.filter (λ r, existsb holds_non_finite_value (cells r)) (rows df)).

(** ** The world the script runs in *)

Inductive fnode :=
| File (content : string)
| Dir.

Global Instance fnode_eq_dec : EqDecision fnode.
Proof. solve_decision. Defined.

(** What the run does to the file system, in order. *)
Inductive event :=
| Opened (path : string)
| Written (path : string) (data : string).

Record World := MkWorld {
  files : gmap string fnode;
  (** paths that [open] cannot create or truncate: no parent directory,
      no permission *)
  unwritable : gset string;
  stdout : list string;
  (** the reading of [time.time()] *)
  clock : float;
  trace : list event;
  (** what [uuid4().hex] returns at the one call a run makes of it *)
  uuid4_hex : string }.

(** A Python statement: it runs in a world, and returns or raises. *)
Definition M (A : Type) : Type := World → result A * World.

Global Instance M_ret : MRet M := λ A a w, (Ok a, w).

Global Instance M_bind : MBind M := λ A B k c w,
  match c w with
  | (Ok a, w') => k a w'
  | (Raise e, w') => (Raise e, w')
  end.

(** The outcome of a library call, as a statement. *)
Definition lift {A} (r : result A) : M A := λ w, (r, w).

(** The world after some more lines on standard output. *)
Definition printed (lines : list string) (w : World) : World :=
  MkWorld (files w) (unwritable w) (stdout w ++ lines) (clock w) (trace w)
          (uuid4_hex w).

Definition print (line : string) : M unit := λ w, (Ok (), printed [line] w).

(** [os.path.exists(path)] *)
Definition os_path_exists (path : string) : M bool := λ w,
  (Ok (bool_decide (is_Some (files w !! path))), w).

(** [time.time()] *)
Definition time_time : M float := λ w, (Ok (clock w), w).

(** [open(path, "w")] and [open(path, "wb")]: the file is created, or
    truncated, when it is opened.  The handle is the path. *)
Definition py_open (path : string) : M string := λ w,
  if bool_decide (path ∈ unwritable w) then
    (Raise (Exn "OSError" path), w)
  else
    match files w !! path with
    | Some Dir => (Raise (Exn "IsADirectoryError" path), w)
    | _ =>
        (Ok path,
         MkWorld (<[path := File ""]> (files w)) (unwritable w) (stdout w)
                 (clock w) (trace w ++ [Opened path]) (uuid4_hex w))
    end.

(** [f.write(data)] *)
Definition file_write (f : string) (data : string) : M unit := λ w,
  let content := match files w !! f with Some (File c) => c | _ => "" end in
  (Ok (),
   MkWorld (<[f := File (content +:+ data)]> (files w)) (unwritable w) (stdout w)
           (clock w) (trace w ++ [Written f data]) (uuid4_hex w)).

(** [with open(path, mode) as f: body]: closing the file, on either exit
    of the body, changes nothing in this world. *)
Definition with_open (path : string) (body : string → M unit) : M unit :=
  f ← py_open path; body f.

(** ** The libraries *)

Inductive tensor_type :=
| FloatTensorType (shape : list (option nat))
| DoubleTensorType (shape : list (option nat))
| Int64TensorType (shape : list (option nat)).

(** The constructor arguments of [IsolationForest]. *)
Record IsolationForest := {
  n_estimators : nat;
  contamination : string;
  max_features : Q;
  bootstrap : bool;
  n_jobs : Z;
  random_state : Z }.

Class Libs := {
  (** a fitted forest, and the ONNX model made from it *)
  Model : Type;
  ModelProto : Type;
  (** [pd.read_csv(_, header=None)] on the content of the file *)
  read_csv : string → result DataFrame;
  (** [np.random.RandomState(seed).permutation(n)] *)
  rng_permutation : Z → nat → list nat;
  (** [IsolationForest(...).fit(X)] *)
  fit : IsolationForest → DataFrame → result Model;
  score_samples : Model → DataFrame → result (list float);
  np_mean : list float → float;
  (** the [:.4f] of an f-string *)
  format_4f : float → string;
  (** [convert_sklearn(model, initial_types=_, target_opset=_, name=_)] *)
  convert_sklearn :
    Model → list (string * tensor_type) → nat → string → result ModelProto;
  (** the inputs the graph of an ONNX model declares *)
  graph_input : ModelProto → list (string * tensor_type);
  SerializeToString : ModelProto → result string;
  (** the text [json.dump(_, f, indent=_)] writes *)
  json_dumps : pyval → nat → string }.

Section Pipeline.
Context {L : Libs}.

(** [pd.read_csv(path, header=None)] *)
Definition pd_read_csv (path : string) : M DataFrame := λ w,
  match files w !! path with
  | Some (File content) => (read_csv content, w)
  | Some Dir => (Raise (Exn "IsADirectoryError" path), w)
  | None => (Raise (Exn "FileNotFoundError" path), w)
  end.

(** [convert_sklearn(model, initial_types=_, target_opset=_)]: called
    without [name=], the converter names the graph [uuid4().hex]: the
    graph, and so its bytes, depend on a value that differs from one run
    to the next. *)
Definition convert_sklearn_unnamed (model : Model)
    (initial_types : list (string * tensor_type)) (target_opset : nat)
  : M ModelProto := λ w,
  (convert_sklearn model initial_types target_opset (uuid4_hex w), w).

(** [df.iloc[positions]] *)
Definition iloc (positions : list nat) (df : DataFrame) : result DataFrame :=
  match mapM (λ i, rows df !! i) positions with
  | Some rs => Ok (Frame (columns df) rs)
  | None => Raise (Exn "IndexError" "positional indexers are out-of-bounds")
  end.

(** The sizes scikit-learn's [train_test_split] settles on, given
    [test_size] alone: [n_test = ceil(test_size * n_samples)] and
    [n_train = n_samples - n_test].  (The product is a double in the
    library; for [0.3] it rounds to the same integer as the exact one for
    every size below 2^50.) *)
Definition n_test (test_size : Q) (n_samples : nat) : nat :=
  Z.to_nat (Qceiling (test_size * inject_Z (Z.of_nat n_samples))).

Definition n_train (test_size : Q) (n_samples : nat) : nat :=
  n_samples - n_test test_size n_samples.

(** The two [ValueError]s of [train_test_split(df, test_size=_)]. *)
Definition test_size_error (n_samples : nat) (test_size : Q) : exn :=
  Exn "ValueError"
    ("test_size=" +:+ repr_float test_size
     +:+ " should be either positive and smaller than the number of samples "
     +:+ pretty n_samples +:+ " or a float in the (0, 1) range").

Definition empty_train_set_error (n_samples : nat) (test_size : Q) : exn :=
  Exn "ValueError"
    ("With n_samples=" +:+ pretty n_samples +:+ ", test_size=" +:+ repr_float test_size
     +:+ " and train_size=None, the resulting train set will be empty."
     +:+ " Adjust any of the aforementioned parameters.").

(** [train_test_split(df, test_size=_, random_state=_)]: a [ValueError]
    when no training row would be left; the seeded permutation of the row
    positions gives the test rows first, then the training rows. *)
Definition train_test_split (df : DataFrame) (test_size : Q) (seed : Z)
  : result (DataFrame * DataFrame) :=
  let n_samples := len df in
  if Qle_bool test_size 0 || Qle_bool 1 test_size then
    Raise (test_size_error n_samples test_size)
  else
    if n_train test_size n_samples =? 0 then
      Raise (empty_train_set_error n_samples test_size)
    else
      let permutation := rng_permutation seed n_samples in
      let ind_test := take (n_test test_size n_samples) permutation in
      let ind_train :=
        take (n_train test_size n_samples)
             (drop (n_test test_size n_samples) permutation) in
      match iloc ind_train df, iloc ind_test df with
      | Ok train, Ok test => Ok (train, test)
      | Raise e, _ | _, Raise e => Raise e
      end.

Definition nl : string := String (Ascii.ascii_of_nat 10) "".

(** ** [train_model] *)

Definition train_model (data_path model_output_path metadata_output_path : string)
  : M unit :=
  print "--- ML Training Pipeline Started ---";;
  print ("Loading feature data from: " +:+ data_path);;
  found ← os_path_exists data_path;
  if negb found then
    print (nl +:+ "FATAL ERROR: Data file not found at '" +:+ data_path +:+ "'.");;
    print "Please run the C++ application with 'ml_data_collection_enabled = true' to generate it first.";;
    mret ()
  else
    df ← pd_read_csv data_path;
    if negb (shape1 df =? length FEATURE_NAMES) then
      print (nl +:+ "FATAL ERROR: Mismatch in feature count!");;
      print ("  Expected " +:+ pretty (length FEATURE_NAMES)
             +:+ " features based on script, but found " +:+ pretty (shape1 df)
             +:+ " in CSV.");;
      print "  Check if C++ Feature enum and Python FEATURE_NAMES list are in sync.";;
      mret ()
    else
      let df := set_columns FEATURE_NAMES df in
      print ("Loaded " +:+ pretty (len df) +:+ " raw samples.");;
      let df := dropna (replace_inf df) in
      print ("Using " +:+ pretty (len df) +:+ " samples after cleaning NaN/inf values.");;
      (if len df <? 200 then
         print "Warning: Dataset is very small. Model quality may be poor."
       else mret ());;
      '(X_train, X_test) ← lift (train_test_split df (3 # 10) 42);
      print ("Training IsolationForest model on " +:+ pretty (len X_train) +:+ " samples...");;
      model ← lift (fit {| n_estimators := 100;
                           contamination := "auto";
                           max_features := 1;
                           bootstrap := false;
                           n_jobs := -1;
                           random_state := 42 |} X_train);
      print "Evaluating model performance...";;
      scores_test ← lift (score_samples model X_test);
      let avg_score := np_mean scores_test in
      print ("  - Average Anomaly Score (on test set): " +:+ format_4f avg_score);;
      print "Converting model to ONNX format...";;
      let num_features := length FEATURE_NAMES in
      let initial_type := [("float_input", FloatTensorType [None; Some num_features])] in
      onnx_model ← convert_sklearn_unnamed model initial_type 13;
      with_open model_output_path (λ f,
        data ← lift (SerializeToString onnx_model);
        file_write f data);;
      print ("  -> ONNX model saved to: " +:+ model_output_path);;
      now ← time_time;
      training_timestamp_utc ← lift (py_int now);
      let metadata :=
        PDict [ ("model_type", PStr "IsolationForest");
                ("training_timestamp_utc", PInt training_timestamp_utc);
                ("training_data_path", PStr data_path);
                ("training_samples", PInt (Z.of_nat (len X_train)));
                ("num_features", PInt (Z.of_nat num_features));
                ("feature_names_ordered", PList (map PStr FEATURE_NAMES));
                ("evaluation_metrics",
                 PDict [("average_anomaly_score_test", PFloat avg_score)]) ] in
      with_open metadata_output_path (λ f,
        file_write f (json_dumps metadata 4));;
      print ("  -> Model metadata saved to: " +:+ metadata_output_path);;
      print "--- ML Training Pipeline Finished ---".

(** ** The script run as a program *)

Definition DATA_PATH : string := "data/training_features.csv".
Definition MODEL_PATH : string := "src/models/isolation_forest.onnx".
Definition METADATA_PATH : string := "src/models/isolation_forest.json".

Definition main : M unit := train_model DATA_PATH MODEL_PATH METADATA_PATH.

(** The exit status of the interpreter: 1 after an uncaught exception. *)
Definition exit_status {A} (outcome : result A) : Z :=
  match outcome with Ok _ => 0 | Raise _ => 1 end.

End Pipeline.

Arguments train_test_split : simpl never.
Arguments dropna : simpl never.
Arguments replace_inf : simpl never.
Arguments set_columns : simpl never.

(** ** Worlds and values a run goes through *)

(** The world after [path] has been opened for writing. *)
Definition opened (path : string) (w : World) : World :=
  MkWorld (<[path := File ""]> (files w)) (unwritable w) (stdout w)
          (clock w) (trace w ++ [Opened path]) (uuid4_hex w).

(** The world after [path] has been opened for writing and [data]
    written to it. *)
Definition wrote (path data : string) (w : World) : World :=
  MkWorld (<[path := File data]> (files w)) (unwritable w) (stdout w)
          (clock w) (trace w ++ [Opened path; Written path data]) (uuid4_hex w).

(** The frame the split receives. *)
Definition cleaned (raw : DataFrame) : DataFrame :=
  clean (set_columns FEATURE_NAMES raw).

Definition forest : IsolationForest :=
  {| n_estimators := 100;
     contamination := "auto";
     max_features := 1;
     bootstrap := false;
     n_jobs := -1;
     random_state := 42 |}.

Definition initial_type : list (string * tensor_type) :=
  [("float_input", FloatTensorType [None; Some (length FEATURE_NAMES)])].

Definition metadata_record (timestamp : Z) (data_path : string)
    (training_samples : nat) (avg_score : float) : pyval :=
  PDict [ ("model_type", PStr "IsolationForest");
          ("training_timestamp_utc", PInt timestamp);
          ("training_data_path", PStr data_path);
          ("training_samples", PInt (Z.of_nat training_samples));
          ("num_features", PInt 27);
          ("feature_names_ordered", PList (map PStr FEATURE_NAMES));
          ("evaluation_metrics",
           PDict [("average_anomaly_score_test", PFloat avg_score)]) ].

Section Stages.
Context {L : Libs}.

(** Every stage up to the conversion to ONNX went through: the file
    parsed to [raw] with the schema's column count, the split gave
    [X_train], the forest was fitted and scored with mean [avg_score], and
    converted to [onnx_model]. *)
Inductive converts (data_path : string) (w : World) (raw X_train : DataFrame)
    (avg_score : float) (onnx_model : ModelProto) : Prop :=
| converts_intro content X_test model scores_test :
    files w !! data_path = Some (File content) →
    read_csv content = Ok raw →
    shape1 raw = length FEATURE_NAMES →
    train_test_split (cleaned raw) (3 # 10) 42 = Ok (X_train, X_test) →
    fit forest X_train = Ok model →
    score_samples model X_test = Ok scores_test →
    avg_score = np_mean scores_test →
    convert_sklearn model initial_type 13 (uuid4_hex w) = Ok onnx_model →
    converts data_path w raw X_train avg_score onnx_model.

End Stages.

(** ** What the script prints *)

Definition banner (data_path : string) : list string :=
  [ "--- ML Training Pipeline Started ---";
    "Loading feature data from: " +:+ data_path ].

Definition missing_file_diagnostic (data_path : string) : list string :=
  [ nl +:+ "FATAL ERROR: Data file not found at '" +:+ data_path +:+ "'.";
    "Please run the C++ application with 'ml_data_collection_enabled = true' to generate it first." ].

Definition schema_mismatch_diagnostic (found : nat) : list string :=
  [ nl +:+ "FATAL ERROR: Mismatch in feature count!";
    "  Expected 27 features based on script, but found " +:+ pretty found +:+ " in CSV.";
    "  Check if C++ Feature enum and Python FEATURE_NAMES list are in sync." ].

Definition small_dataset_warning : string :=
  "Warning: Dataset is very small. Model quality may be poor.".

(** The lines between the banner and the export, in a run that gets there. *)
Definition progress_lines {L : Libs} (raw X_train : DataFrame) (avg_score : float)
  : list string :=
  [ "Loaded " +:+ pretty (len raw) +:+ " raw samples.";
    "Using " +:+ pretty (len (cleaned raw)) +:+ " samples after cleaning NaN/inf values." ]
  ++ (if len (cleaned raw) <? 200 then [small_dataset_warning] else [])
  ++ [ "Training IsolationForest model on " +:+ pretty (len X_train) +:+ " samples...";
       "Evaluating model performance...";
       "  - Average Anomaly Score (on test set): " +:+ format_4f avg_score;
       "Converting model to ONNX format..." ].

(** The world a complete run ends in. *)
Definition success_world {L : Libs} (data_path model_output_path metadata_output_path : string)
    (raw X_train : DataFrame) (avg_score : float) (data : string) (timestamp : Z)
    (w : World) : World :=
  printed [ "  -> Model metadata saved to: " +:+ metadata_output_path;
            "--- ML Training Pipeline Finished ---" ]
    (wrote metadata_output_path
       (json_dumps (metadata_record timestamp data_path (len X_train) avg_score) 4)
       (printed [ "  -> ONNX model saved to: " +:+ model_output_path ]
          (wrote model_output_path data
             (printed (banner data_path ++ progress_lines raw X_train avg_score) w)))).

(** A failed validation leaves a diagnostic: an exception that reaches the
    interpreter, or one of the two FATAL ERROR reports. *)
Definition diagnosed (data_path : string) (w : World) (outcome : result unit)
    (w' : World) : Prop :=
  (∃ e, outcome = Raise e)
  ∨ (outcome = Ok ()
     ∧ ∃ report, stdout w' = stdout w ++ banner data_path ++ report
         ∧ (report = missing_file_diagnostic data_path
            ∨ ∃ found, found ≠ 27 ∧ report = schema_mismatch_diagnostic found)).

(** ** How a run can end *)

Section RunShape.
Context {L : Libs}.
Variables data_path model_output_path metadata_output_path : string.
Variable w : World.

(** The five ways a run ends, by how far it got with the two files. *)
Inductive run_shape (outcome : result unit) (w' : World) : Prop :=
| stopped_upstream :
    (∀ raw X_train avg_score onnx_model,
        ¬ converts data_path w raw X_train avg_score onnx_model) →
    files w' = files w → trace w' = trace w →
    diagnosed data_path w outcome w' →
    run_shape outcome w'
| artifact_not_opened raw X_train avg_score onnx_model e :
    converts data_path w raw X_train avg_score onnx_model →
    model_output_path ∈ unwritable w ∨ files w !! model_output_path = Some Dir →
    outcome = Raise e →
    files w' = files w → trace w' = trace w →
    run_shape outcome w'
| serialization_raised raw X_train avg_score onnx_model e :
    converts data_path w raw X_train avg_score onnx_model →
    SerializeToString onnx_model = Raise e →
    outcome = Raise e →
    files w' = <[model_output_path := File ""]> (files w) →
    trace w' = trace w ++ [Opened model_output_path] →
    run_shape outcome w'
| metadata_not_opened raw X_train avg_score onnx_model data e :
    converts data_path w raw X_train avg_score onnx_model →
    SerializeToString onnx_model = Ok data →
    outcome = Raise e →
    files w' = <[model_output_path := File data]> (files w) →
    trace w' = trace w ++ [Opened model_output_path; Written model_output_path data] →
    run_shape outcome w'
| completed raw X_train avg_score onnx_model data timestamp :
    converts data_path w raw X_train avg_score onnx_model →
    SerializeToString onnx_model = Ok data →
    py_int (clock w) = Ok timestamp →
    outcome = Ok () →
    w' = success_world data_path model_output_path metadata_output_path
           raw X_train avg_score data timestamp w →
    run_shape outcome w'.

(** The stages after the split go through on whatever the split hands
    them. *)
Definition libraries_succeed (raw : DataFrame) : Prop :=
  ∀ X_train X_test,
    train_test_split (cleaned raw) (3 # 10) 42 = Ok (X_train, X_test) →
    ∃ model scores_test onnx_model data,
      fit forest X_train = Ok model
      ∧ score_samples model X_test = Ok scores_test
      ∧ convert_sklearn model initial_type 13 (uuid4_hex w) = Ok onnx_model
      ∧ SerializeToString onnx_model = Ok data.

End RunShape.

(** ** A small implementation of the libraries

    Enough to run the pipeline on concrete worlds: the parser returns a
    given outcome, the generator reverses the positions, the forest is the
    frame it was fitted on, and the converter supports the forest or does
    not. *)

Definition zero : float := S754_zero false.

Definition demo_frame (ncols nrows : nat) : DataFrame :=
  Frame (map LInt (seq 0 ncols))
        (map (λ i, Row i (repeat (Num zero) ncols)) (seq 0 nrows)).

Definition demo_libs (parsed : result DataFrame) (convertible : bool) : Libs :=
  {| Model := DataFrame;
     ModelProto := DataFrame * list (string * tensor_type);
     read_csv := λ _, parsed;
     rng_permutation := λ _ n, rev (seq 0 n);
     fit := λ _ X, Ok X;
     score_samples := λ _ X, Ok (map (λ _, zero) (rows X));
     np_mean := λ xs, hd zero xs;
     format_4f := λ _, "0.0000";
     convert_sklearn := λ m inputs _ _,
       if convertible then Ok (m, inputs)
       else Raise (Exn "MissingShapeCalculator"
                       "Unable to find a shape calculator for type IsolationForest");
     graph_input := snd;
     SerializeToString := λ _, Ok "onnx";
     json_dumps := λ v _, String.concat "," (dict_keys v) |}.

(** The rows of a cleaned [demo_frame 27 _] at the given positions. *)
Definition demo_pick (positions : list nat) : DataFrame :=
  Frame (map LStr FEATURE_NAMES) (map (λ i, Row i (repeat (Num zero) 27)) positions).

(** A world with the training data in place and nothing else. *)
Definition demo_world : World :=
  MkWorld {[ DATA_PATH := File "0,0,0" ]} ∅ [] (S754_finite false 27 26) []
          "6fa459eaee8a3ca4894edb77e160355e".

(** The same world before the feature extractor has run. *)
Definition empty_world : World :=
  MkWorld ∅ ∅ [] (S754_finite false 27 26) [] "6fa459eaee8a3ca4894edb77e160355e".

(** ** More of what a run prints, and how a stage can fail *)

Definition closing_line : string := "--- ML Training Pipeline Finished ---".

(** The two size lines and, for a small frame, the warning. *)
Definition size_report (raw : DataFrame) : list string :=
  [ "Loaded " +:+ pretty (len raw) +:+ " raw samples.";
    "Using " +:+ pretty (len (cleaned raw)) +:+ " samples after cleaning NaN/inf values." ]
  ++ (if len (cleaned raw) <? 200 then [small_dataset_warning] else []).

Definition training_line (X_train : DataFrame) : string :=
  "Training IsolationForest model on " +:+ pretty (len X_train) +:+ " samples...".

Definition saved_line (model_output_path : string) : string :=
  "  -> ONNX model saved to: " +:+ model_output_path.

Section Failures.
Context {L : Libs}.

(** A library call before the artifact is opened raises [e]: the parser
    (or the operating system, when the path is a directory), the split,
    the fit, the scoring or the converter, every earlier call having
    returned.  [lines] is what has been printed after the banner by then. *)
Inductive raises_upstream (data_path : string) (w : World) (e : exn)
  : list string → Prop :=
| path_is_directory :
    files w !! data_path = Some Dir →
    e = Exn "IsADirectoryError" data_path →
    raises_upstream data_path w e []
| parser_raises content :
    files w !! data_path = Some (File content) →
    read_csv content = Raise e →
    raises_upstream data_path w e []
| split_raises content raw :
    files w !! data_path = Some (File content) →
    read_csv content = Ok raw →
    shape1 raw = length FEATURE_NAMES →
    train_test_split (cleaned raw) (3 # 10) 42 = Raise e →
    raises_upstream data_path w e (size_report raw)
| fit_raises content raw X_train X_test :
    files w !! data_path = Some (File content) →
    read_csv content = Ok raw →
    shape1 raw = length FEATURE_NAMES →
    train_test_split (cleaned raw) (3 # 10) 42 = Ok (X_train, X_test) →
    fit forest X_train = Raise e →
    raises_upstream data_path w e (size_report raw ++ [training_line X_train])
| score_raises content raw X_train X_test model :
    files w !! data_path = Some (File content) →
    read_csv content = Ok raw →
    shape1 raw = length FEATURE_NAMES →
    train_test_split (cleaned raw) (3 # 10) 42 = Ok (X_train, X_test) →
    fit forest X_train = Ok model →
    score_samples model X_test = Raise e →
    raises_upstream data_path w e
      (size_report raw ++ [training_line X_train; "Evaluating model performance..."])
| converter_raises content raw X_train X_test model scores_test :
    files w !! data_path = Some (File content) →
    read_csv content = Ok raw →
    shape1 raw = length FEATURE_NAMES →
    train_test_split (cleaned raw) (3 # 10) 42 = Ok (X_train, X_test) →
    fit forest X_train = Ok model →
    score_samples model X_test = Ok scores_test →
    convert_sklearn model initial_type 13 (uuid4_hex w) = Raise e →
    raises_upstream data_path w e
      (progress_lines raw X_train (np_mean scores_test)).

(** The file parses to a frame with the schema's column count, and fewer
    than 200 of its rows survive the cleaning. *)
Definition validated_and_small (data_path : string) (w : World) : Prop :=
  ∃ content raw,
    files w !! data_path = Some (File content)
    ∧ read_csv content = Ok raw
    ∧ shape1 raw = length FEATURE_NAMES
    ∧ len (cleaned raw) < 200.

(** What [open] raises on a path it cannot open for writing. *)
Definition open_error (path : string) (w : World) : option exn :=
  if bool_decide (path ∈ unwritable w) then Some (Exn "OSError" path)
  else match files w !! path with
       | Some Dir => Some (Exn "IsADirectoryError" path)
       | _ => None
       end.

End Failures.

(** Worlds in which an output path cannot be opened: the metadata path
    is not writable; the artifact path is a directory. *)
Definition locked_metadata_world : World :=
  MkWorld {[ DATA_PATH := File "0,0,0" ]} {[ METADATA_PATH ]} []
          (S754_finite false 27 26) [] "6fa459eaee8a3ca4894edb77e160355e".

Definition artifact_directory_world : World :=
  MkWorld (<[ MODEL_PATH := Dir ]> {[ DATA_PATH := File "0,0,0" ]}) ∅ []
          (S754_finite false 27 26) [] "6fa459eaee8a3ca4894edb77e160355e".

(** A parser for the demonstrations that always raises. *)
Definition failing_parse : result DataFrame :=
  Raise (Exn "EmptyDataError" "No columns to parse from file").

(** ** Facts about cleaning *)

Lemma replace_cell_nan c : isna (replace_cell c) = is_non_finite c.
Proof. by destruct c as [[]|]. Qed.

Lemma replace_cell_finite c : is_non_finite c = false → replace_cell c = c.
Proof. by destruct c as [[]|]. Qed.

Lemma has_na_replace r : has_na (replace_row r) = has_non_finite r.
Proof.
  destruct r as [i cs]. unfold has_na, has_non_finite. simpl.
  induction cs as [|c cs IH]; simpl; [done|].
  by rewrite replace_cell_nan, IH.
Qed.

Lemma replace_row_finite r : has_non_finite r = false → replace_row r = r.
Proof.
  destruct r as [i cs]. unfold has_non_finite, replace_row. simpl.
  intros Hfin. f_equal.
  induction cs as [|c cs IH]; simpl in *; [done|].
  apply orb_false_iff in Hfin as [Hc Hcs].
  by rewrite replace_cell_finite, IH.
Qed.

(** Cleaning keeps exactly the rows that were finite throughout, as they
    were and in their order. *)
Lemma clean_rows df :
  rows (clean df) = List.filter (λ r, negb (has_non_finite r)) (rows df).
Proof.
  unfold clean, dropna, replace_inf. simpl.
  induction (rows df) as [|r rs IH]; simpl; [done|].
  rewrite has_na_replace.
  destruct (has_non_finite r) eqn:Hr; simpl; [done|].
  by rewrite IH, replace_row_finite.
Qed.

Lemma filter_split_length {A} (p : A → bool) (l : list A) :
  length (List.filter (λ x, negb (p x)) l) + length (List.filter p l) = length l.
Proof.
  induction l as [|x l IH]; simpl; [done|].
  destruct (p x); simpl; lia.
Qed.

(** C2 (as amended). The Cleaner drops whole rows: what survives is the
    sub-list of the ingested rows without a float NaN or infinity in any
    cell, unchanged; so the cleaned size is the original size minus the
    number of rows with at least one float NaN or infinity, and no
    surviving row holds one.  Cells of a column kept as text are not
    examined, whatever they read. *)
Theorem cleaner_drops_non_finite_rows (df : DataFrame) :
  len (clean df) = len df - count_non_finite df
  ∧ rows (clean df) = List.filter (λ r, negb (has_non_finite r)) (rows df)
  ∧ (∀ r, r ∈ rows (clean df) → r ∈ rows df ∧ has_non_finite r = false)
  ∧ columns (clean df) = columns df.
Proof.
  split_and!.
  - unfold len, count_non_finite. rewrite clean_rows.
    pose proof (filter_split_length has_non_finite (rows df)). lia.
  - apply clean_rows.
  - intros r. rewrite clean_rows, !list_elem_of_In, filter_In.
    intros [Hin Hfin]. split; [done|]. by apply negb_true_iff.
  - done.
Qed.

(** ** The split *)

Lemma Qceiling_3_10 (z : Z) :
  Qceiling ((3 # 10) * inject_Z z) = ((3 * z + 9) / 10)%Z.
Proof.
  unfold Qceiling, Qfloor. cbn [Qmult Qopp inject_Z Qnum Qden].
  change (Z.pos (10 * 1)) with 10%Z.
  rewrite ?Z.mul_1_r.
  pose proof (Z.div_mod (- (3 * z))%Z 10 ltac:(lia)).
  pose proof (Z.mod_pos_bound (- (3 * z))%Z 10 ltac:(lia)).
  pose proof (Z.div_mod (3 * z + 9) 10 ltac:(lia)).
  pose proof (Z.mod_pos_bound (3 * z + 9) 10 ltac:(lia)).
  lia.
Qed.

Lemma n_test_3_10 n : n_test (3 # 10) n = (3 * n + 9) / 10.
Proof.
  unfold n_test. rewrite Qceiling_3_10.
  apply Nat2Z.inj. rewrite Nat2Z.inj_div, Z2Nat.id.
  - f_equal. lia.
  - apply Z.div_pos; lia.
Qed.

Lemma n_train_3_10 n : n_train (3 # 10) n = n - (3 * n + 9) / 10.
Proof. unfold n_train. by rewrite n_test_3_10. Qed.

(** No training row is left exactly when there are fewer than two rows. *)
Lemma n_train_empty n : n_train (3 # 10) n = 0 ↔ n ≤ 1.
Proof.
  rewrite n_train_3_10.
  pose proof (Nat.div_mod_eq (3 * n + 9) 10).
  pose proof (Nat.mod_upper_bound (3 * n + 9) 10 ltac:(lia)).
  lia.
Qed.

Lemma mapM_lookup_seq {A} (rs : list A) :
  mapM (λ i, rs !! i) (seq 0 (length rs)) = Some rs.
Proof.
  apply mapM_Some, Forall2_same_length_lookup. split.
  - by rewrite length_seq.
  - intros i j r Hj Hr. apply lookup_seq in Hj as [-> _]. done.
Qed.

Lemma mapM_Permutation {A B} (f : A → option B) l l' k :
  l ≡ₚ l' → mapM f l = Some k → ∃ k', mapM f l' = Some k' ∧ k ≡ₚ k'.
Proof.
  intros Hperm. revert k.
  induction Hperm as [|x l l' _ IH|x y l|l l' l'' _ IH1 _ IH2]; intros k Hk.
  - exists k. done.
  - simpl in *. destruct (f x) as [b|]; [|done]. simpl in *.
    destruct (mapM f l) as [bs|] eqn:Hbs; [|done]. simpl in Hk.
    destruct (IH bs eq_refl) as (bs' & -> & Hbs'). simpl.
    injection Hk as <-. eexists. split; [done|]. by constructor.
  - simpl in *. destruct (f y) as [b|]; [|done].
    destruct (f x) as [a|]; [|done]. simpl in *.
    destruct (mapM f l) as [bs|]; [|done]. simpl in *.
    injection Hk as <-. eexists. split; [done|]. by constructor.
  - destruct (IH1 k Hk) as (k' & Hk' & Hp).
    destruct (IH2 k' Hk') as (k'' & Hk'' & Hp').
    exists k''. split; [done|]. by etrans.
Qed.

Lemma mapM_app_inv {A B} (f : A → option B) l1 l2 k :
  mapM f (l1 ++ l2) = Some k →
  ∃ k1 k2, mapM f l1 = Some k1 ∧ mapM f l2 = Some k2 ∧ k = k1 ++ k2.
Proof.
  rewrite mapM_Some. intros Hall.
  apply Forall2_app_inv_l in Hall as (k1 & k2 & H1 & H2 & ->).
  exists k1, k2. by rewrite !mapM_Some.
Qed.

Section Split.
Context {L : Libs}.
Variable df : DataFrame.
Hypothesis rng_ok : rng_permutation 42 (len df) ≡ₚ seq 0 (len df).

(** The split of a frame with at least two rows. *)
Lemma train_test_split_ok :
  2 ≤ len df →
  ∃ X_train X_test,
    train_test_split df (3 # 10) 42 = Ok (X_train, X_test)
    ∧ columns X_train = columns df ∧ columns X_test = columns df
    ∧ len X_test = (3 * len df + 9) / 10
    ∧ len X_train = len df - (3 * len df + 9) / 10
    ∧ rows X_test ++ rows X_train ≡ₚ rows df.
Proof.
  intros Hn.
  assert (Hnt : (3 * len df + 9) / 10 ≤ len df).
  { pose proof (Nat.div_mod_eq (3 * len df + 9) 10).
    pose proof (Nat.mod_upper_bound (3 * len df + 9) 10 ltac:(lia)). lia. }
  assert (Hne : n_train (3 # 10) (len df) ≠ 0).
  { rewrite n_train_empty. lia. }
  unfold train_test_split.
  change (Qle_bool (3 # 10) 0 || Qle_bool 1 (3 # 10)) with false.
  cbv beta iota zeta.
  apply Nat.eqb_neq in Hne. rewrite Hne. clear Hne.
  rewrite n_train_3_10, n_test_3_10.
  set (p := rng_permutation 42 (len df)) in *.
  set (nt := (3 * len df + 9) / 10) in *.
  assert (Hlen : length p = len df).
  { by rewrite (Permutation_length rng_ok), length_seq. }
  rewrite (take_ge (drop nt p)) by (rewrite length_drop; lia).
  destruct (mapM_Permutation (λ i, rows df !! i) _ p (rows df)
              (Permutation_sym rng_ok) (mapM_lookup_seq _)) as (k & Hk & Hperm).
  rewrite <- (take_drop nt p) in Hk.
  apply mapM_app_inv in Hk as (k1 & k2 & Hk1 & Hk2 & ->).
  unfold iloc. rewrite Hk1, Hk2.
  eexists _, _. split; [done|]. split_and!; try done.
  - unfold len at 1. cbn [rows]. rewrite <- (length_mapM _ _ _ Hk1), length_take. lia.
  - unfold len at 1. cbn [rows]. rewrite <- (length_mapM _ _ _ Hk2), length_drop. lia.
Qed.

End Split.

Lemma repr_float_3_10 : repr_float (3 # 10) = "0.3".
Proof. reflexivity. Qed.

(** With fewer than two rows the split raises. *)
Lemma train_test_split_empty {L : Libs} (df : DataFrame) :
  n_train (3 # 10) (len df) = 0 →
  train_test_split df (3 # 10) 42
  = Raise (Exn "ValueError"
             ("With n_samples=" +:+ pretty (len df)
              +:+ ", test_size=0.3 and train_size=None, the resulting train set will be empty. Adjust any of the aforementioned parameters.")).
Proof.
  intros Hn. unfold train_test_split.
  change (Qle_bool (3 # 10) 0 || Qle_bool 1 (3 # 10)) with false.
  cbv beta iota zeta. rewrite Hn.
  unfold empty_train_set_error. by rewrite repr_float_3_10.
Qed.

(** The training rows the split returns are never none. *)
Lemma train_test_split_nonempty {L : Libs} (df X_train X_test : DataFrame) :
  train_test_split df (3 # 10) 42 = Ok (X_train, X_test) →
  n_train (3 # 10) (len df) ≠ 0.
Proof.
  unfold train_test_split. simpl. intros Hs Hn. by rewrite Hn in Hs.
Qed.

(** C3 (as amended). With the seed fixed at 42 the split is a function of
    the frame, so every run on the same cleaned Dataset gives the same
    two sets.  For a cleaned Dataset of at least two rows it returns an
    EvaluationSet of [ceil(0.3 n)] rows and a TrainingSet of the other
    [n - ceil(0.3 n)] rows (within 9/10 of a row of 70%): together they are
    the rows of the Dataset, each once, so no row label is on both sides;
    1000 rows give 700 and 300. *)
Theorem split_partitions_70_30 {L : Libs} (df : DataFrame) :
  rng_permutation 42 (len df) ≡ₚ seq 0 (len df) →
  2 ≤ len df →
  ∃ X_train X_test,
    train_test_split df (3 # 10) 42 = Ok (X_train, X_test)
    ∧ (∀ outcome, outcome = train_test_split df (3 # 10) 42 →
       outcome = Ok (X_train, X_test))
    ∧ len X_test = (3 * len df + 9) / 10
    ∧ len X_train = len df - len X_test
    ∧ 7 * len df - 9 ≤ 10 * len X_train ≤ 7 * len df
    ∧ rows X_test ++ rows X_train ≡ₚ rows df
    ∧ (NoDup (map row_label (rows df)) →
       ∀ r r', r ∈ rows X_train → r' ∈ rows X_test → row_label r ≠ row_label r')
    ∧ (len df = 1000 → len X_train = 700 ∧ len X_test = 300).
Proof.
  intros Hrng Hn.
  destruct (train_test_split_ok df Hrng Hn)
    as (X_train & X_test & Hsplit & _ & _ & Htest & Htrain & Hperm).
  exists X_train, X_test.
  pose proof (Nat.div_mod_eq (3 * len df + 9) 10) as Hdiv.
  pose proof (Nat.mod_upper_bound (3 * len df + 9) 10 ltac:(lia)) as Hmod.
  split_and!; try done; try lia.
  { by intros ? ->. }
  intros Hnodup r r' Hr Hr' Heq.
  assert (Hlabels : NoDup (map row_label (rows X_test) ++ map row_label (rows X_train))).
  { rewrite <- map_app. by rewrite Hperm. }
  apply NoDup_app in Hlabels as (_ & Hdisj & _).
  apply (Hdisj (row_label r')).
  - apply list_elem_of_In, in_map, list_elem_of_In, Hr'.
  - rewrite <- Heq. apply list_elem_of_In, in_map, list_elem_of_In, Hr.
Qed.

Lemma split_partitions_70_30_witness :
  ∃ X_train X_test,
    train_test_split (L := demo_libs (Ok (demo_frame 27 1000)) true)
      (demo_frame 27 1000) (3 # 10) 42 = Ok (X_train, X_test)
    ∧ len X_train = 700 ∧ len X_test = 300.
Proof.
  destruct (split_partitions_70_30 (L := demo_libs (Ok (demo_frame 27 1000)) true)
              (demo_frame 27 1000))
    as (X_train & X_test & Hsplit & _ & _ & _ & _ & _ & _ & Hsizes).
  - apply Permutation_sym, Permutation_rev.
  - vm_compute. lia.
  - exists X_train, X_test. split; [exact Hsplit|]. apply Hsizes. reflexivity.
Defined.

(** A cleaned Dataset of one row is not partitioned: the split raises. *)
Lemma split_of_one_row_raises :
  len (demo_frame 27 1) = 1
  ∧ train_test_split (L := demo_libs (Ok (demo_frame 27 1)) true)
      (demo_frame 27 1) (3 # 10) 42
    = Raise (Exn "ValueError"
               "With n_samples=1, test_size=0.3 and train_size=None, the resulting train set will be empty. Adjust any of the aforementioned parameters.").
Proof. split; reflexivity. Qed.

(** ** Running the script: the validation exits *)

Lemma printed_printed a b w : printed b (printed a w) = printed (a ++ b)%list w.
Proof. unfold printed. simpl. by rewrite <- app_assoc. Qed.

Ltac unfold_run :=
  unfold train_model, with_open, convert_sklearn_unnamed, mbind, M_bind, mret,
    M_ret, print, os_path_exists, pd_read_csv, time_time, lift.

Section ValidationExits.
Context {L : Libs}.
Variables data_path model_output_path metadata_output_path : string.
Variable w : World.

Lemma run_missing_input :
  files w !! data_path = None →
  train_model data_path model_output_path metadata_output_path w
  = (Ok (), printed (banner data_path ++ missing_file_diagnostic data_path)%list w).
Proof.
  intros Hfile. unfold_run. simpl. rewrite Hfile. simpl.
  by rewrite !printed_printed.
Qed.

Lemma run_schema_mismatch content raw :
  files w !! data_path = Some (File content) →
  read_csv content = Ok raw →
  shape1 raw ≠ length FEATURE_NAMES →
  train_model data_path model_output_path metadata_output_path w
  = (Ok (), printed (banner data_path ++ schema_mismatch_diagnostic (shape1 raw))%list w).
Proof.
  intros Hfile Hread Hshape. unfold_run. simpl. rewrite Hfile. simpl.
  rewrite Hfile, Hread.
  apply Nat.eqb_neq in Hshape. simpl in Hshape. rewrite Hshape. simpl.
  by rewrite !printed_printed.
Qed.

(** C1. When the file parses to a frame whose column count is not the
    length of the Feature Schema (27 names), [train_model] prints the
    feature-count diagnostic and returns at once: no file is opened, and
    the file system, the artifact and the metadata path included, is as it
    was. *)
Theorem schema_mismatch_halts content raw :
  files w !! data_path = Some (File content) →
  read_csv content = Ok raw →
  shape1 raw ≠ length FEATURE_NAMES →
  length FEATURE_NAMES = 27
  ∧ ∃ w', train_model data_path model_output_path metadata_output_path w = (Ok (), w')
      ∧ stdout w' = (stdout w ++ banner data_path ++ schema_mismatch_diagnostic (shape1 raw))%list
      ∧ trace w' = trace w
      ∧ files w' = files w
      ∧ files w' !! model_output_path = files w !! model_output_path
      ∧ files w' !! metadata_output_path = files w !! metadata_output_path.
Proof.
  intros Hfile Hread Hshape. split; [done|].
  eexists. split; [by eapply run_schema_mismatch|]. done.
Qed.

End ValidationExits.

Lemma schema_mismatch_halts_witness :
  length FEATURE_NAMES = 27
  ∧ ∃ w', train_model (L := demo_libs (Ok (demo_frame 26 3)) true)
            DATA_PATH MODEL_PATH METADATA_PATH demo_world = (Ok (), w')
      ∧ stdout w' = (stdout demo_world ++ banner DATA_PATH ++ schema_mismatch_diagnostic 26)%list
      ∧ trace w' = trace demo_world
      ∧ files w' = files demo_world
      ∧ files w' !! MODEL_PATH = files demo_world !! MODEL_PATH
      ∧ files w' !! METADATA_PATH = files demo_world !! METADATA_PATH.
Proof.
  apply (schema_mismatch_halts (L := demo_libs (Ok (demo_frame 26 3)) true)
           DATA_PATH MODEL_PATH METADATA_PATH demo_world "0,0,0" (demo_frame 26 3)).
  - vm_compute. reflexivity.
  - reflexivity.
  - vm_compute. lia.
Defined.

(** ** Running the script: past validation *)

Lemma py_open_ok path w :
  path ∉ unwritable w → files w !! path ≠ Some Dir →
  py_open path w = (Ok path, opened path w).
Proof.
  intros Hw Hdir. unfold py_open.
  rewrite bool_decide_eq_false_2 by done.
  by destruct (files w !! path) as [[]|].
Qed.

Lemma file_write_opened path data w :
  file_write path data (opened path w) = (Ok (), wrote path data w).
Proof.
  unfold file_write, opened, wrote. simpl.
  by rewrite lookup_insert_eq, insert_insert_eq, <- app_assoc.
Qed.

Lemma len_set_columns names df : len (set_columns names df) = len df.
Proof. done. Qed.

Lemma shape1_eqb raw :
  shape1 raw = length FEATURE_NAMES → (shape1 raw =? 27) = true.
Proof. intros ->. done. Qed.

Section PastValidation.
Context {L : Libs}.
Variables data_path model_output_path metadata_output_path : string.
Variable w : World.
Variables (content : string) (raw : DataFrame).
Hypothesis Hfile : files w !! data_path = Some (File content).
Hypothesis Hread : read_csv content = Ok raw.
Hypothesis Hshape : shape1 raw = length FEATURE_NAMES.

(** The split raises: the run ends there, after the size report and,
    for a small frame, the warning. *)
Lemma run_split_raises e :
  train_test_split (cleaned raw) (3 # 10) 42 = Raise e →
  train_model data_path model_output_path metadata_output_path w
  = (Raise e,
     printed (banner data_path
              ++ [ "Loaded " +:+ pretty (len raw) +:+ " raw samples.";
                   "Using " +:+ pretty (len (cleaned raw))
                   +:+ " samples after cleaning NaN/inf values." ]
              ++ (if len (cleaned raw) <? 200 then [small_dataset_warning] else []))
             w).
Proof.
  intros Hsplit. unfold cleaned, clean in *. unfold_run. simpl.
  rewrite Hfile. simpl. rewrite Hfile, Hread, (shape1_eqb _ Hshape). simpl.
  rewrite len_set_columns.
  destruct (len _ <? 200); simpl; rewrite Hsplit; simpl;
    by rewrite !printed_printed.
Qed.

(** Every stage goes through. *)
Lemma run_success X_train X_test model scores_test onnx_model data timestamp :
  train_test_split (cleaned raw) (3 # 10) 42 = Ok (X_train, X_test) →
  fit forest X_train = Ok model →
  score_samples model X_test = Ok scores_test →
  convert_sklearn model initial_type 13 (uuid4_hex w) = Ok onnx_model →
  model_output_path ∉ unwritable w →
  files w !! model_output_path ≠ Some Dir →
  SerializeToString onnx_model = Ok data →
  py_int (clock w) = Ok timestamp →
  metadata_output_path ∉ unwritable w →
  files w !! metadata_output_path ≠ Some Dir →
  train_model data_path model_output_path metadata_output_path w
  = (Ok (),
     success_world data_path model_output_path metadata_output_path
       raw X_train (np_mean scores_test) data timestamp w).
Proof.
  intros Hsplit Hfit Hscore Hconv Hmo Hmo_dir Hser Hts Hme Hme_dir.
  unfold cleaned, clean, forest, initial_type in *. simpl in Hconv.
  unfold_run. simpl.
  rewrite Hfile. simpl. rewrite Hfile, Hread, (shape1_eqb _ Hshape). simpl.
  rewrite len_set_columns.
  unfold success_world, progress_lines, cleaned, clean.
  destruct (len _ <? 200); simpl; rewrite Hsplit; simpl;
    rewrite Hfit, Hscore, Hconv; simpl;
    (rewrite py_open_ok by done); rewrite Hser, file_write_opened; simpl;
    rewrite Hts; simpl.
  all: rewrite py_open_ok, file_write_opened; simpl.
  all: try by rewrite !printed_printed.
  all: try done.
  all: simpl; destruct (decide (metadata_output_path = model_output_path)) as [->|Hne];
    by rewrite ?lookup_insert_eq, ?lookup_insert_ne.
Qed.

End PastValidation.

(** ** Every run has one of the five shapes *)

Section Shape.
Context {L : Libs}.
Variables data_path model_output_path metadata_output_path : string.
Variable w : World.

Ltac exec_to_export Hfile Hread Hshape Hsplit Hfit Hscore Hconv :=
  unfold cleaned, clean, forest, initial_type in *; simpl in Hconv; unfold_run; simpl;
  rewrite Hfile; simpl; rewrite Hfile, Hread, (shape1_eqb _ Hshape); simpl;
  destruct (len _ <? 200); simpl; rewrite Hsplit; simpl;
  rewrite Hfit, Hscore, Hconv; simpl.

Ltac no_converts :=
  let Hc := fresh in
  intros ???? Hc; destruct Hc; unfold cleaned, clean, forest, initial_type in *;
  simplify_eq/=; congruence.

Theorem train_model_shape :
  run_shape data_path model_output_path metadata_output_path w
    (train_model data_path model_output_path metadata_output_path w).1
    (train_model data_path model_output_path metadata_output_path w).2.
Proof.
  destruct (files w !! data_path) as [[content|]|] eqn:Hfile.
  2:{ unfold_run. simpl. rewrite Hfile. simpl. rewrite Hfile. simpl.
      apply stopped_upstream; [no_converts|done|done|]. left. eauto. }
  2:{ rewrite run_missing_input by done. simpl.
      apply stopped_upstream; [no_converts|done|done|]. right. split; [done|].
      eexists. split; [done|]. by left. }
  destruct (read_csv content) as [raw|e] eqn:Hread.
  2:{ unfold_run. simpl. rewrite Hfile. simpl. rewrite Hfile, Hread. simpl.
      apply stopped_upstream; [no_converts|done|done|]. left. eauto. }
  destruct (decide (shape1 raw = length FEATURE_NAMES)) as [Hshape|Hshape].
  2:{ erewrite run_schema_mismatch by done. simpl.
      apply stopped_upstream; [no_converts|done|done|]. right. split; [done|].
      eexists. split; [done|]. right. eauto. }
  destruct (train_test_split (cleaned raw) (3 # 10) 42) as [[X_train X_test]|e] eqn:Hsplit.
  2:{ erewrite run_split_raises by done. simpl.
      apply stopped_upstream; [no_converts|done|done|]. left. eauto. }
  destruct (fit forest X_train) as [model|e] eqn:Hfit.
  2:{ apply stopped_upstream; [no_converts| | |left];
        unfold cleaned, clean, forest in *; unfold_run; simpl;
        rewrite Hfile; simpl; rewrite Hfile, Hread, (shape1_eqb _ Hshape); simpl;
        destruct (len _ <? 200); simpl; rewrite Hsplit; simpl; rewrite Hfit;
        simpl; eauto. }
  destruct (score_samples model X_test) as [scores_test|e] eqn:Hscore.
  2:{ apply stopped_upstream; [no_converts| | |left];
        unfold cleaned, clean, forest in *; unfold_run; simpl;
        rewrite Hfile; simpl; rewrite Hfile, Hread, (shape1_eqb _ Hshape); simpl;
        destruct (len _ <? 200); simpl; rewrite Hsplit; simpl; rewrite Hfit, Hscore;
        simpl; eauto. }
  destruct (convert_sklearn model initial_type 13 (uuid4_hex w)) as [onnx_model|e] eqn:Hconv.
  2:{ apply stopped_upstream; [no_converts| | |left];
        unfold cleaned, clean, forest, initial_type in *; simpl in Hconv; unfold_run; simpl;
        rewrite Hfile; simpl; rewrite Hfile, Hread, (shape1_eqb _ Hshape); simpl;
        destruct (len _ <? 200); simpl; rewrite Hsplit; simpl;
        rewrite Hfit, Hscore, Hconv; simpl; eauto. }
  assert (Hc : converts data_path w raw X_train (np_mean scores_test) onnx_model)
    by (by econstructor).
  destruct (decide (model_output_path ∈ unwritable w)) as [Hmo|Hmo].
  { eapply artifact_not_opened; [done|by left|..]; exec_to_export Hfile Hread Hshape Hsplit Hfit Hscore Hconv;
      unfold py_open; simpl; rewrite (bool_decide_eq_true_2 _ Hmo); done. }
  destruct (decide (files w !! model_output_path = Some Dir)) as [Hmo_dir|Hmo_dir].
  { eapply artifact_not_opened; [done|by right|..]; exec_to_export Hfile Hread Hshape Hsplit Hfit Hscore Hconv;
      unfold py_open; simpl; rewrite (bool_decide_eq_false_2 _ Hmo), Hmo_dir; done. }
  destruct (SerializeToString onnx_model) as [data|e] eqn:Hser.
  2:{ eapply serialization_raised; [done|done|..]; exec_to_export Hfile Hread Hshape Hsplit Hfit Hscore Hconv;
        (rewrite py_open_ok by done); rewrite Hser; done. }
  destruct (py_int (clock w)) as [timestamp|e] eqn:Hts.
  2:{ eapply metadata_not_opened; [done|done|..]; exec_to_export Hfile Hread Hshape Hsplit Hfit Hscore Hconv;
        (rewrite py_open_ok by done); rewrite Hser, file_write_opened; simpl;
        rewrite Hts; done. }
  destruct (decide (metadata_output_path ∈ unwritable w)) as [Hme|Hme].
  { eapply metadata_not_opened; [done|done|..]; exec_to_export Hfile Hread Hshape Hsplit Hfit Hscore Hconv;
        (rewrite py_open_ok by done); rewrite Hser, file_write_opened; simpl;
        rewrite Hts; simpl; unfold py_open; simpl;
        rewrite (bool_decide_eq_true_2 _ Hme); done. }
  destruct (decide (metadata_output_path ≠ model_output_path
                    ∧ files w !! metadata_output_path = Some Dir)) as [[Hne Hme_dir]|Hme_dir].
  { eapply metadata_not_opened; [done|done|..]; exec_to_export Hfile Hread Hshape Hsplit Hfit Hscore Hconv;
        (rewrite py_open_ok by done); rewrite Hser, file_write_opened; simpl;
        rewrite Hts; simpl; unfold py_open; simpl;
        rewrite (bool_decide_eq_false_2 _ Hme), lookup_insert_ne, Hme_dir by done;
        done. }
  assert (files w !! metadata_output_path ≠ Some Dir) as Hme_ok.
  { intros Hdir. destruct (decide (metadata_output_path = model_output_path)) as [Heq|Hne].
    - by rewrite Heq in Hdir.
    - by apply Hme_dir. }
  erewrite run_success by done. by eapply completed.
Qed.

End Shape.

(** ** The claims about whole runs *)

Section Claims.
Context {L : Libs}.
Variables data_path model_output_path metadata_output_path : string.
Variable w : World.

(** C4 (as amended). When the split would leave the TrainingSet empty
    (the cleaned Dataset has fewer than two rows), it is the split that
    fails, with scikit-learn's [ValueError] about the empty train set: it
    returns no TrainingSet, so the forest is never fitted, on an empty set
    or otherwise.  The exception is not caught: the interpreter exits with
    status 1, and no file has been opened or changed. *)
Theorem empty_training_set_is_fatal content raw :
  files w !! data_path = Some (File content) →
  read_csv content = Ok raw →
  shape1 raw = length FEATURE_NAMES →
  n_train (3 # 10) (len (cleaned raw)) = 0 →
  ∃ e w',
    train_test_split (cleaned raw) (3 # 10) 42 = Raise e
    ∧ (∀ X_train X_test,
         train_test_split (cleaned raw) (3 # 10) 42 ≠ Ok (X_train, X_test))
    ∧ e = Exn "ValueError"
            ("With n_samples=" +:+ pretty (len (cleaned raw))
             +:+ ", test_size=0.3 and train_size=None, the resulting train set will be empty. Adjust any of the aforementioned parameters.")
    ∧ train_model data_path model_output_path metadata_output_path w = (Raise e, w')
    ∧ exit_status (train_model data_path model_output_path metadata_output_path w).1 = 1%Z
    ∧ trace w' = trace w
    ∧ files w' = files w.
Proof.
  intros Hfile Hread Hshape Hempty.
  pose proof (train_test_split_empty _ Hempty) as Hsplit.
  eexists _, _. rewrite (run_split_raises _ _ _ _ _ _ Hfile Hread Hshape _ Hsplit).
  split_and!; try done. intros X_train X_test. by rewrite Hsplit.
Qed.

(** C10. On the two validation exits, the missing input file and the
    column count that is not the schema's, [train_model] prints its
    diagnostic and returns [None]; nothing is raised, so the script that
    called it goes on and the interpreter exits with status 0. *)
Theorem validation_failures_return_none :
  files w !! data_path = None
  ∨ (∃ content raw,
       files w !! data_path = Some (File content)
       ∧ read_csv content = Ok raw
       ∧ shape1 raw ≠ length FEATURE_NAMES) →
  ∃ w' report,
    train_model data_path model_output_path metadata_output_path w = (Ok (), w')
    ∧ stdout w' = stdout w ++ banner data_path ++ report
    ∧ (report = missing_file_diagnostic data_path
       ∨ ∃ found, report = schema_mismatch_diagnostic found)
    ∧ exit_status (train_model data_path model_output_path metadata_output_path w).1 = 0%Z.
Proof.
  intros [Hfile|(content & raw & Hfile & Hread & Hshape)].
  - rewrite run_missing_input by done.
    eexists _, _. split; [done|]. split; [done|]. split; [by left|done].
  - erewrite run_schema_mismatch by done.
    eexists _, _. split; [done|]. split; [done|]. split; [right; eauto|done].
Qed.

End Claims.

Lemma empty_training_set_is_fatal_witness :
  ∃ e w',
    train_test_split (L := demo_libs (Ok (demo_frame 27 1)) true)
      (cleaned (demo_frame 27 1)) (3 # 10) 42 = Raise e
    ∧ (∀ X_train X_test,
         train_test_split (L := demo_libs (Ok (demo_frame 27 1)) true)
           (cleaned (demo_frame 27 1)) (3 # 10) 42 ≠ Ok (X_train, X_test))
    ∧ e = Exn "ValueError"
            ("With n_samples=" +:+ pretty (len (cleaned (demo_frame 27 1)))
             +:+ ", test_size=0.3 and train_size=None, the resulting train set will be empty. Adjust any of the aforementioned parameters.")
    ∧ train_model (L := demo_libs (Ok (demo_frame 27 1)) true)
        DATA_PATH MODEL_PATH METADATA_PATH demo_world = (Raise e, w')
    ∧ exit_status (train_model (L := demo_libs (Ok (demo_frame 27 1)) true)
                     DATA_PATH MODEL_PATH METADATA_PATH demo_world).1 = 1%Z
    ∧ trace w' = trace demo_world
    ∧ files w' = files demo_world.
Proof.
  apply (empty_training_set_is_fatal (L := demo_libs (Ok (demo_frame 27 1)) true)
           DATA_PATH MODEL_PATH METADATA_PATH demo_world "0,0,0" (demo_frame 27 1)).
  - vm_compute. reflexivity.
  - reflexivity.
  - vm_compute. reflexivity.
  - vm_compute. reflexivity.
Defined.

Lemma validation_failures_return_none_witness :
  (∃ w' report,
     main (L := demo_libs (Ok (demo_frame 27 10)) true) empty_world = (Ok (), w')
     ∧ stdout w' = stdout empty_world ++ banner DATA_PATH ++ report
     ∧ (report = missing_file_diagnostic DATA_PATH
        ∨ ∃ found, report = schema_mismatch_diagnostic found)
     ∧ exit_status (main (L := demo_libs (Ok (demo_frame 27 10)) true) empty_world).1 = 0%Z)
  ∧ (∃ w' report,
       main (L := demo_libs (Ok (demo_frame 26 10)) true) demo_world = (Ok (), w')
       ∧ stdout w' = stdout demo_world ++ banner DATA_PATH ++ report
       ∧ (report = missing_file_diagnostic DATA_PATH
          ∨ ∃ found, report = schema_mismatch_diagnostic found)
       ∧ exit_status (main (L := demo_libs (Ok (demo_frame 26 10)) true) demo_world).1 = 0%Z).
Proof.
  split.
  - apply (validation_failures_return_none (L := demo_libs (Ok (demo_frame 27 10)) true)
             DATA_PATH MODEL_PATH METADATA_PATH empty_world).
    left. vm_compute. reflexivity.
  - apply (validation_failures_return_none (L := demo_libs (Ok (demo_frame 26 10)) true)
             DATA_PATH MODEL_PATH METADATA_PATH demo_world).
    right. exists "0,0,0", (demo_frame 26 10). split_and!.
    + vm_compute. reflexivity.
    + reflexivity.
    + vm_compute. lia.
Defined.

Lemma cleaner_drops_non_finite_rows_witness :
  len (clean (Frame [LInt 0; LInt 1]
                [ Row 0 [Num zero; Num (S754_infinity true)];
                  Row 1 [Num zero; Num zero];
                  Row 2 [Num S754_nan; Num zero] ])) = 1.
Proof.
  rewrite (proj1 (cleaner_drops_non_finite_rows _)). reflexivity.
Defined.

(** ** The claims about the two output files *)

Lemma converts_functional {L : Libs} data_path w raw X_train avg_score onnx_model
    raw' X_train' avg_score' onnx_model' :
  converts data_path w raw X_train avg_score onnx_model →
  converts data_path w raw' X_train' avg_score' onnx_model' →
  raw' = raw ∧ X_train' = X_train ∧ avg_score' = avg_score ∧ onnx_model' = onnx_model.
Proof.
  intros [c Xt m sc Hfile Hread _ Hsplit Hfit Hscore -> Hconv]
         [c' Xt' m' sc' Hfile' Hread' _ Hsplit' Hfit' Hscore' -> Hconv'].
  rewrite Hfile in Hfile'. injection Hfile' as <-.
  rewrite Hread in Hread'. injection Hread' as <-.
  rewrite Hsplit in Hsplit'. injection Hsplit' as <- <-.
  rewrite Hfit in Hfit'. injection Hfit' as <-.
  rewrite Hscore in Hscore'. injection Hscore' as <-.
  rewrite Hconv in Hconv'. injection Hconv' as <-.
  done.
Qed.

Section Outputs.
Context {L : Libs}.
Variables data_path model_output_path metadata_output_path : string.
Variable w : World.

#[local] Abbreviation run :=
  (train_model data_path model_output_path metadata_output_path w).

(** C6. The file events of a run are an initial part of: artifact opened,
    artifact written, metadata opened, metadata written.  So the metadata
    file is opened only once the artifact has been written in full, and
    only in a run in which every earlier stage went through and the
    serialization returned the bytes that were written; with the two paths
    distinct the artifact file then holds exactly those bytes.  In every
    other run the metadata path is left as it was. *)
Theorem metadata_written_after_artifact :
  ∃ evs, trace run.2 = trace w ++ evs
  ∧ (((evs = []
       ∨ evs = [Opened model_output_path]
       ∨ ∃ data, evs = [Opened model_output_path; Written model_output_path data])
      ∧ (model_output_path ≠ metadata_output_path →
         files run.2 !! metadata_output_path = files w !! metadata_output_path))
     ∨ (∃ raw X_train avg_score onnx_model data timestamp,
          converts data_path w raw X_train avg_score onnx_model
          ∧ SerializeToString onnx_model = Ok data
          ∧ py_int (clock w) = Ok timestamp
          ∧ run.1 = Ok ()
          ∧ evs = [ Opened model_output_path;
                    Written model_output_path data;
                    Opened metadata_output_path;
                    Written metadata_output_path
                      (json_dumps (metadata_record timestamp data_path
                                     (len X_train) avg_score) 4) ]
          ∧ files run.2 !! metadata_output_path
            = Some (File (json_dumps (metadata_record timestamp data_path
                                        (len X_train) avg_score) 4))
          ∧ (model_output_path ≠ metadata_output_path →
             files run.2 !! model_output_path = Some (File data)))).
Proof.
  destruct (train_model_shape data_path model_output_path metadata_output_path w)
    as [_ Hfiles Htrace _|? ? ? ? ? _ _ _ Hfiles Htrace|? ? ? ? ? _ _ _ Hfiles Htrace
       |? ? ? ? ? ? _ _ _ Hfiles Htrace|raw X_train avg_score onnx_model data timestamp
          Hc Hser Hts Hout Hw'].
  - exists []. rewrite app_nil_r. split; [done|]. left. split; [by left|].
    by rewrite Hfiles.
  - exists []. rewrite app_nil_r. split; [done|]. left. split; [by left|].
    by rewrite Hfiles.
  - eexists. split; [done|]. left. split; [right; by left|].
    intros Hne. by rewrite Hfiles, lookup_insert_ne.
  - eexists. split; [done|]. left. split; [right; right; eauto|].
    intros Hne. by rewrite Hfiles, lookup_insert_ne.
  - eexists. rewrite Hw'. split.
    { unfold success_world. simpl. by rewrite <- app_assoc. }
    right. exists raw, X_train, avg_score, onnx_model, data, timestamp.
    split_and!; try done.
    + unfold success_world. simpl. by rewrite lookup_insert_eq.
    + intros Hne. unfold success_world. simpl.
      by rewrite lookup_insert_ne, lookup_insert_eq.
Qed.

(** C7. In a complete run the metadata file holds the JSON text of a
    record with exactly the seven keys: the model kind, the creation time
    as [int(time.time())], the data path, the number of training rows,
    the number of features (the length of the schema, 27), the feature
    names in schema order, and the mean test score.  With a cleaned
    Dataset of 1000 rows the training-sample count is 700. *)
Theorem metadata_record_fields raw X_train avg_score onnx_model data timestamp :
  converts data_path w raw X_train avg_score onnx_model →
  SerializeToString onnx_model = Ok data →
  py_int (clock w) = Ok timestamp →
  model_output_path ∉ unwritable w →
  files w !! model_output_path ≠ Some Dir →
  metadata_output_path ∉ unwritable w →
  files w !! metadata_output_path ≠ Some Dir →
  let metadata := metadata_record timestamp data_path (len X_train) avg_score in
  ∃ w', run = (Ok (), w')
    ∧ files w' !! metadata_output_path = Some (File (json_dumps metadata 4))
    ∧ dict_keys metadata
      = [ "model_type"; "training_timestamp_utc"; "training_data_path";
          "training_samples"; "num_features"; "feature_names_ordered";
          "evaluation_metrics" ]
    ∧ dict_get "model_type" metadata = Some (PStr "IsolationForest")
    ∧ dict_get "training_timestamp_utc" metadata = Some (PInt timestamp)
    ∧ dict_get "training_data_path" metadata = Some (PStr data_path)
    ∧ dict_get "training_samples" metadata = Some (PInt (Z.of_nat (len X_train)))
    ∧ dict_get "num_features" metadata = Some (PInt (Z.of_nat (length FEATURE_NAMES)))
    ∧ dict_get "feature_names_ordered" metadata = Some (PList (map PStr FEATURE_NAMES))
    ∧ dict_get "evaluation_metrics" metadata
      = Some (PDict [("average_anomaly_score_test", PFloat avg_score)])
    ∧ (rng_permutation 42 1000 ≡ₚ seq 0 1000 →
       len (cleaned raw) = 1000 → len X_train = 700).
Proof.
  intros [content X_test model scores_test Hfile Hread Hshape Hsplit Hfit Hscore -> Hconv]
    Hser Hts Hmo Hmo_dir Hme Hme_dir metadata.
  eexists. split; [by eapply run_success|].
  split_and!; try done.
  - unfold success_world. simpl. by rewrite lookup_insert_eq.
  - intros Hrng Hlen.
    destruct (train_test_split_ok (cleaned raw)) as (X & X' & Hsplit' & _ & _ & _ & HX & _).
    + by rewrite Hlen.
    + lia.
    + rewrite Hsplit in Hsplit'. injection Hsplit' as <- <-.
      rewrite HX, Hlen. reflexivity.
Qed.

End Outputs.

Section ExportStage.
Context {L : Libs}.
Variables data_path model_output_path metadata_output_path : string.
Variable w : World.

#[local] Abbreviation run :=
  (train_model data_path model_output_path metadata_output_path w).

(** C8. With a converter that declares as graph inputs the initial types
    it is given, the model whose serialization is written to the artifact
    file declares exactly one input: a 32-bit float tensor of shape
    (variable batch, 27), 27 being the length of the Feature Schema. *)
Theorem exported_model_declares_one_float_input :
  (∀ model inputs opset name onnx_model,
      convert_sklearn model inputs opset name = Ok onnx_model →
      graph_input onnx_model = inputs) →
  ∀ data rest,
    trace run.2
    = trace w ++ Opened model_output_path :: Written model_output_path data :: rest →
    ∃ onnx_model,
      SerializeToString onnx_model = Ok data
      ∧ graph_input onnx_model = [("float_input", FloatTensorType [None; Some 27])]
      ∧ length (graph_input onnx_model) = 1
      ∧ length FEATURE_NAMES = 27.
Proof.
  intros Hdeclares data rest Htrace.
  assert (Hinput : ∀ raw X_train avg_score onnx_model,
             converts data_path w raw X_train avg_score onnx_model →
             graph_input onnx_model = [("float_input", FloatTensorType [None; Some 27])]).
  { intros ? ? ? ? [? ? ? ? _ _ _ _ _ _ _ Hconv]. by apply Hdeclares in Hconv. }
  destruct (train_model_shape data_path model_output_path metadata_output_path w)
    as [_ _ Htrace' _|? ? ? ? ? _ _ _ _ Htrace'|? ? ? ? ? _ _ _ _ Htrace'
       |? ? ? onnx_model data' ? Hc Hser _ _ Htrace'
       |? ? ? onnx_model data' ? Hc Hser _ _ Hw'].
  - rewrite Htrace' in Htrace. apply (f_equal length) in Htrace.
    rewrite length_app in Htrace. simpl in Htrace. lia.
  - rewrite Htrace' in Htrace. apply (f_equal length) in Htrace.
    rewrite length_app in Htrace. simpl in Htrace. lia.
  - rewrite Htrace' in Htrace. by apply app_inv_head in Htrace.
  - rewrite Htrace' in Htrace. apply app_inv_head in Htrace.
    injection Htrace as <- _. exists onnx_model.
    by rewrite (Hinput _ _ _ _ Hc).
  - rewrite Hw' in Htrace. unfold success_world in Htrace. simpl in Htrace.
    rewrite <- app_assoc in Htrace. apply app_inv_head in Htrace.
    injection Htrace as <- _. exists onnx_model.
    by rewrite (Hinput _ _ _ _ Hc).
Qed.

(** C9 (as amended). A cleaned Dataset of at least two and fewer than 200
    rows gets the low-data warning and nothing else: the run goes on to
    the split, and when the later stages go through and the two paths can
    be written, it returns normally, having printed the warning and its
    closing line, with both output files in place. *)
Theorem small_dataset_warning_is_advisory content raw :
  files w !! data_path = Some (File content) →
  read_csv content = Ok raw →
  shape1 raw = length FEATURE_NAMES →
  rng_permutation 42 (len (cleaned raw)) ≡ₚ seq 0 (len (cleaned raw)) →
  2 ≤ len (cleaned raw) < 200 →
  libraries_succeed w raw →
  is_finite (clock w) = true →
  model_output_path ∉ unwritable w →
  files w !! model_output_path ≠ Some Dir →
  metadata_output_path ∉ unwritable w →
  files w !! metadata_output_path ≠ Some Dir →
  ∃ w', run = (Ok (), w')
    ∧ small_dataset_warning ∈ stdout w'
    ∧ last (stdout w') = Some "--- ML Training Pipeline Finished ---"
    ∧ (∃ data, files w' !! model_output_path = Some (File data))
    ∧ (∃ json, files w' !! metadata_output_path = Some (File json)).
Proof.
  intros Hfile Hread Hshape Hrng [Hlo Hhi] Hlibs Hclock Hmo Hmo_dir Hme Hme_dir.
  destruct (train_test_split_ok (cleaned raw) Hrng Hlo)
    as (X_train & X_test & Hsplit & _).
  destruct (Hlibs _ _ Hsplit) as (model & scores_test & onnx_model & data
                                  & Hfit & Hscore & Hconv & Hser).
  assert (∃ timestamp, py_int (clock w) = Ok timestamp) as [timestamp Hts].
  { destruct (clock w); try done; eexists; reflexivity. }
  eexists. split; [by eapply run_success|].
  unfold success_world, progress_lines. simpl.
  apply Nat.ltb_lt in Hhi. rewrite Hhi.
  split_and!.
  - repeat first [rewrite elem_of_app | rewrite elem_of_cons]. tauto.
  - by rewrite (last_app_cons _ [_]).
  - destruct (decide (metadata_output_path = model_output_path)) as [->|Hne].
    + eexists. by rewrite lookup_insert_eq.
    + eexists. by rewrite lookup_insert_ne, lookup_insert_eq.
  - eexists. by rewrite lookup_insert_eq.
Qed.

End ExportStage.

(** ** The claims on concrete runs *)

Lemma metadata_written_after_artifact_witness :
  files (main (L := demo_libs (Ok (demo_frame 27 10)) true) demo_world).2 !! MODEL_PATH
  = Some (File "onnx").
Proof.
  destruct (metadata_written_after_artifact
              (L := demo_libs (Ok (demo_frame 27 10)) true)
              DATA_PATH MODEL_PATH METADATA_PATH demo_world)
    as (evs & Htrace & [[Hshort _]|(raw & X_train & avg_score & onnx_model & data
                                     & timestamp & _ & Hser & _ & _ & _ & _ & Hmodel)]).
  - vm_compute in Htrace.
    destruct Hshort as [->|[->|[data ->]]]; discriminate.
  - injection Hser as <-. apply Hmodel. discriminate.
Defined.

Lemma metadata_record_fields_witness :
  ∃ w',
    main (L := demo_libs (Ok (demo_frame 27 1000)) true) demo_world = (Ok (), w')
    ∧ dict_get "training_samples"
        (metadata_record 1811939328 DATA_PATH
           (len (demo_pick (rev (seq 0 700)))) zero)
      = Some (PInt 700)
    ∧ dict_get "num_features"
        (metadata_record 1811939328 DATA_PATH
           (len (demo_pick (rev (seq 0 700)))) zero)
      = Some (PInt 27).
Proof.
  destruct (metadata_record_fields (L := demo_libs (Ok (demo_frame 27 1000)) true)
              DATA_PATH MODEL_PATH METADATA_PATH demo_world
              (demo_frame 27 1000) (demo_pick (rev (seq 0 700))) zero
              (demo_pick (rev (seq 0 700)), initial_type) "onnx" 1811939328%Z)
    as (w' & Hrun & _ & _ & _ & _ & _ & Hsamples & Hfeatures & _).
  - apply (converts_intro (L := demo_libs (Ok (demo_frame 27 1000)) true)
             _ _ _ _ _ _ "0,0,0" (demo_pick (rev (seq 700 300)))
             (demo_pick (rev (seq 0 700)))
             (map (λ _, zero) (rows (demo_pick (rev (seq 700 300)))))).
    + vm_compute. reflexivity.
    + reflexivity.
    + vm_compute. reflexivity.
    + vm_compute. reflexivity.
    + reflexivity.
    + reflexivity.
    + vm_compute. reflexivity.
    + reflexivity.
  - reflexivity.
  - vm_compute. reflexivity.
  - vm_compute. set_solver.
  - vm_compute. discriminate.
  - vm_compute. set_solver.
  - vm_compute. discriminate.
  - exists w'. split; [exact Hrun|]. split.
    + vm_compute. reflexivity.
    + vm_compute. reflexivity.
Defined.

Lemma exported_model_declares_one_float_input_witness :
  ∃ onnx_model : DataFrame * list (string * tensor_type),
    snd onnx_model = [("float_input", FloatTensorType [None; Some 27])]
    ∧ length (snd onnx_model) = 1.
Proof.
  destruct (exported_model_declares_one_float_input
              (L := demo_libs (Ok (demo_frame 27 10)) true)
              DATA_PATH MODEL_PATH METADATA_PATH demo_world)
    with (data := "onnx")
         (rest := [ Opened METADATA_PATH;
                    Written METADATA_PATH
                      "model_type,training_timestamp_utc,training_data_path,training_samples,num_features,feature_names_ordered,evaluation_metrics" ])
    as (onnx_model & _ & Hinput & Hone & _).
  - intros model inputs opset name onnx_model Hconv. simpl in Hconv.
    injection Hconv as <-. reflexivity.
  - vm_compute. reflexivity.
  - exists onnx_model. split; [exact Hinput|exact Hone].
Defined.

(** A cleaned Dataset of one row is below the threshold: the warning is
    printed, and the run does not complete; it raises at the split and
    writes neither file. *)
Lemma small_dataset_of_one_row_fails :
  len (cleaned (demo_frame 27 1)) < 200
  ∧ (train_model (L := demo_libs (Ok (demo_frame 27 1)) true)
       DATA_PATH MODEL_PATH METADATA_PATH demo_world).1
    = Raise (Exn "ValueError"
               "With n_samples=1, test_size=0.3 and train_size=None, the resulting train set will be empty. Adjust any of the aforementioned parameters.")
  ∧ last (stdout (train_model (L := demo_libs (Ok (demo_frame 27 1)) true)
                    DATA_PATH MODEL_PATH METADATA_PATH demo_world).2)
    = Some small_dataset_warning
  ∧ files (train_model (L := demo_libs (Ok (demo_frame 27 1)) true)
             DATA_PATH MODEL_PATH METADATA_PATH demo_world).2 !! MODEL_PATH = None
  ∧ files (train_model (L := demo_libs (Ok (demo_frame 27 1)) true)
             DATA_PATH MODEL_PATH METADATA_PATH demo_world).2 !! METADATA_PATH = None.
Proof. split_and!; [vm_compute; lia|vm_compute; reflexivity..]. Qed.

Lemma small_dataset_warning_is_advisory_witness :
  ∃ w',
    main (L := demo_libs (Ok (demo_frame 27 150)) true) demo_world = (Ok (), w')
    ∧ small_dataset_warning ∈ stdout w'
    ∧ last (stdout w') = Some "--- ML Training Pipeline Finished ---"
    ∧ (∃ data, files w' !! MODEL_PATH = Some (File data))
    ∧ (∃ json, files w' !! METADATA_PATH = Some (File json)).
Proof.
  apply (small_dataset_warning_is_advisory
           (L := demo_libs (Ok (demo_frame 27 150)) true)
           DATA_PATH MODEL_PATH METADATA_PATH demo_world "0,0,0" (demo_frame 27 150)).
  - vm_compute. reflexivity.
  - reflexivity.
  - vm_compute. reflexivity.
  - apply Permutation_sym, Permutation_rev.
  - vm_compute. lia.
  - intros X_train X_test _. eexists _, _, _, _. split_and!; reflexivity.
  - reflexivity.
  - vm_compute. set_solver.
  - vm_compute. discriminate.
  - vm_compute. set_solver.
  - vm_compute. discriminate.
Defined.

(** ** More about the Cleaner *)

Lemma clean_frame df :
  clean df = Frame (columns df) (List.filter (λ r, negb (has_non_finite r)) (rows df)).
Proof.
  rewrite <- clean_rows. by destruct (clean df) eqn:Hc; rewrite <- Hc.
Qed.

Lemma filter_idem {A} (p : A → bool) (l : list A) :
  List.filter p (List.filter p l) = List.filter p l.
Proof.
  induction l as [|x l IH]; simpl; [done|].
  destruct (p x) eqn:Hx; simpl; [|done]. by rewrite Hx, IH.
Qed.

Lemma filter_none_all {A} (p : A → bool) (l : list A) :
  List.filter p l = [] → List.filter (λ x, negb (p x)) l = l.
Proof.
  induction l as [|x l IH]; simpl; [done|].
  destruct (p x); simpl; [done|]. intros Hl. by rewrite IH.
Qed.

(** X1. Lines 70-71 run twice do what they do once, and a frame in which
    no row has a NaN or an infinity comes out of them as it went in: same
    columns, same rows, same order, same labels. *)
Theorem clean_idempotent (df : DataFrame) :
  clean (clean df) = clean df
  ∧ (count_non_finite df = 0 → clean df = df).
Proof.
  split.
  - rewrite (clean_frame (clean df)), (clean_frame df). simpl.
    by rewrite filter_idem.
  - unfold count_non_finite. intros Hnone.
    apply length_zero_iff_nil in Hnone.
    rewrite clean_frame, (filter_none_all _ _ Hnone). by destruct df.
Qed.

Lemma clean_idempotent_witness :
  clean (demo_frame 3 2) = demo_frame 3 2.
Proof.
  apply (proj2 (clean_idempotent (demo_frame 3 2))). reflexivity.
Defined.

(** ** What reaches the forest *)

Lemma FEATURE_NAMES_NoDup : NoDup FEATURE_NAMES.
Proof. apply (bool_decide_unpack (NoDup FEATURE_NAMES)). by vm_compute. Qed.

Lemma iloc_rows positions df df' :
  iloc positions df = Ok df' →
  columns df' = columns df ∧ ∀ r, r ∈ rows df' → r ∈ rows df.
Proof.
  unfold iloc. destruct (mapM _ positions) as [rs|] eqn:Hrs; [|done].
  intros [= <-]. split; [done|]. simpl. intros r Hr.
  apply mapM_Some in Hrs.
  apply list_elem_of_lookup_1 in Hr as [i Hi].
  destruct (Forall2_lookup_r _ _ _ _ _ Hrs Hi) as (j & _ & Hj).
  by eapply list_elem_of_lookup_2.
Qed.

Lemma train_test_split_rows {L : Libs} df test_size seed X_train X_test :
  train_test_split df test_size seed = Ok (X_train, X_test) →
  columns X_train = columns df ∧ columns X_test = columns df
  ∧ (∀ r, r ∈ rows X_train → r ∈ rows df)
  ∧ (∀ r, r ∈ rows X_test → r ∈ rows df).
Proof.
  unfold train_test_split.
  destruct (_ || _); [done|]. destruct (_ =? 0); [done|].
  destruct (iloc (take (n_train _ _) _) df) as [a|] eqn:Ha; [|done].
  destruct (iloc (take (n_test _ _) _) df) as [b|] eqn:Hb; [|done].
  intros [= <- <-].
  destruct (iloc_rows _ _ _ Ha) as [? ?], (iloc_rows _ _ _ Hb) as [? ?]. done.
Qed.

(** X2. Whatever the seeded generator does, the two frames the split
    hands to [fit] and to [score_samples] carry the 27 names of the
    Feature Schema as their column labels, in schema order and pairwise
    distinct, and every row in them is a row of the parsed file, cells
    and index label untouched, without a float NaN or infinity in it
    (a cell of a column kept as text passes as the text it is). *)
Theorem split_frames_provenance {L : Libs} (raw X_train X_test : DataFrame) :
  train_test_split (cleaned raw) (3 # 10) 42 = Ok (X_train, X_test) →
  columns X_train = map LStr FEATURE_NAMES
  ∧ columns X_test = map LStr FEATURE_NAMES
  ∧ NoDup (columns X_train)
  ∧ shape1 X_train = 27
  ∧ ∀ r, r ∈ rows X_train ∨ r ∈ rows X_test →
         r ∈ rows raw ∧ has_non_finite r = false.
Proof.
  intros Hsplit.
  destruct (train_test_split_rows _ _ _ _ _ Hsplit) as (Hca & Hcb & Hra & Hrb).
  assert (Hcols : columns (cleaned raw) = map LStr FEATURE_NAMES) by done.
  rewrite Hcols in Hca, Hcb. split_and!; try done.
  - rewrite Hca. apply (NoDup_fmap_2_strong LStr); [|apply FEATURE_NAMES_NoDup].
    by intros ? ? _ _ [=].
  - unfold shape1. by rewrite Hca.
  - intros r Hr.
    assert (Hin : r ∈ rows (cleaned raw)) by (destruct Hr; auto).
    unfold cleaned in Hin. rewrite clean_rows in Hin.
    apply list_elem_of_In, filter_In in Hin as [Hin Hfin].
    split; [by apply list_elem_of_In|by apply negb_true_iff].
Qed.

Lemma split_frames_provenance_witness :
  columns (demo_pick (rev (seq 0 7))) = map LStr FEATURE_NAMES
  ∧ columns (demo_pick (rev (seq 7 3))) = map LStr FEATURE_NAMES
  ∧ NoDup (columns (demo_pick (rev (seq 0 7))))
  ∧ shape1 (demo_pick (rev (seq 0 7))) = 27
  ∧ ∀ r, r ∈ rows (demo_pick (rev (seq 0 7))) ∨ r ∈ rows (demo_pick (rev (seq 7 3))) →
         r ∈ rows (demo_frame 27 10) ∧ has_non_finite r = false.
Proof.
  apply (split_frames_provenance (L := demo_libs (Ok (demo_frame 27 10)) true)
           (demo_frame 27 10) (demo_pick (rev (seq 0 7))) (demo_pick (rev (seq 7 3)))).
  vm_compute. reflexivity.
Defined.

(** ** Running the script: the remaining ways out *)

Lemma py_open_error path w e :
  open_error path w = Some e → py_open path w = (Raise e, w).
Proof.
  unfold open_error, py_open. destruct (bool_decide _); [by intros [= <-]|].
  destruct (files w !! path) as [[]|]; by intros [= <-].
Qed.

Lemma py_open_no_error path w :
  open_error path w = None → py_open path w = (Ok path, opened path w).
Proof.
  unfold open_error, py_open. destruct (bool_decide _); [done|].
  by destruct (files w !! path) as [[]|].
Qed.

Lemma progress_lines_unfold {L : Libs} raw X_train avg_score :
  progress_lines raw X_train avg_score
  = size_report raw
    ++ [ training_line X_train;
         "Evaluating model performance...";
         "  - Average Anomaly Score (on test set): " +:+ format_4f avg_score;
         "Converting model to ONNX format..." ].
Proof. unfold progress_lines, size_report. by rewrite <- app_assoc. Qed.

Ltac exec_to_split Hfile Hread Hshape :=
  unfold size_report, training_line, saved_line, cleaned, clean, forest,
    initial_type in *;
  unfold_run; simpl;
  rewrite Hfile; simpl; rewrite Hfile, Hread, (shape1_eqb _ Hshape); simpl;
  rewrite len_set_columns;
  destruct (len _ <? 200); simpl.

Section WaysOut.
Context {L : Libs}.
Variables data_path model_output_path metadata_output_path : string.
Variable w : World.

#[local] Abbreviation run :=
  (train_model data_path model_output_path metadata_output_path w).

Lemma run_directory :
  files w !! data_path = Some Dir →
  run = (Raise (Exn "IsADirectoryError" data_path), printed (banner data_path) w).
Proof.
  intros Hfile. unfold_run. simpl. rewrite Hfile. simpl. rewrite Hfile.
  by rewrite !printed_printed.
Qed.

Lemma run_parser_raises content e :
  files w !! data_path = Some (File content) →
  read_csv content = Raise e →
  run = (Raise e, printed (banner data_path) w).
Proof.
  intros Hfile Hread. unfold_run. simpl. rewrite Hfile. simpl.
  rewrite Hfile, Hread. by rewrite !printed_printed.
Qed.

Section Parsed.
Variables (content : string) (raw X_train X_test : DataFrame).
Hypothesis Hfile : files w !! data_path = Some (File content).
Hypothesis Hread : read_csv content = Ok raw.
Hypothesis Hshape : shape1 raw = length FEATURE_NAMES.
Hypothesis Hsplit : train_test_split (cleaned raw) (3 # 10) 42 = Ok (X_train, X_test).

Lemma run_fit_raises e :
  fit forest X_train = Raise e →
  run = (Raise e,
         printed (banner data_path ++ size_report raw ++ [training_line X_train]) w).
Proof.
  intros Hfit. exec_to_split Hfile Hread Hshape; rewrite Hsplit; simpl;
    rewrite Hfit; by rewrite !printed_printed.
Qed.

Lemma run_score_raises model e :
  fit forest X_train = Ok model →
  score_samples model X_test = Raise e →
  run = (Raise e,
         printed (banner data_path ++ size_report raw
                  ++ [training_line X_train; "Evaluating model performance..."]) w).
Proof.
  intros Hfit Hscore. exec_to_split Hfile Hread Hshape; rewrite Hsplit; simpl;
    rewrite Hfit, Hscore; by rewrite !printed_printed.
Qed.

Section Scored.
Variables (model : Model) (scores_test : list float).
Hypothesis Hfit : fit forest X_train = Ok model.
Hypothesis Hscore : score_samples model X_test = Ok scores_test.

Lemma run_convert_raises e :
  convert_sklearn model initial_type 13 (uuid4_hex w) = Raise e →
  run = (Raise e,
         printed (banner data_path
                  ++ progress_lines raw X_train (np_mean scores_test)) w).
Proof.
  intros Hconv. rewrite progress_lines_unfold.
  exec_to_split Hfile Hread Hshape; simpl in Hconv; rewrite Hsplit; simpl;
    rewrite Hfit, Hscore, Hconv; by rewrite !printed_printed.
Qed.

Section Converted.
Variable onnx_model : ModelProto.
Hypothesis Hconv : convert_sklearn model initial_type 13 (uuid4_hex w) = Ok onnx_model.

#[local] Abbreviation at_export :=
  (printed (banner data_path ++ progress_lines raw X_train (np_mean scores_test)) w).

Lemma run_artifact_open_fails e :
  open_error model_output_path w = Some e →
  run = (Raise e, at_export).
Proof.
  intros Hopen. rewrite progress_lines_unfold.
  exec_to_split Hfile Hread Hshape; simpl in Hconv; rewrite Hsplit; simpl;
    rewrite Hfit, Hscore, Hconv; simpl;
    (erewrite py_open_error by exact Hopen); by rewrite !printed_printed.
Qed.

Lemma run_serialize_raises e :
  open_error model_output_path w = None →
  SerializeToString onnx_model = Raise e →
  run = (Raise e, opened model_output_path at_export).
Proof.
  intros Hopen Hser. rewrite progress_lines_unfold.
  exec_to_split Hfile Hread Hshape; simpl in Hconv; rewrite Hsplit; simpl;
    rewrite Hfit, Hscore, Hconv; simpl;
    (rewrite py_open_no_error by exact Hopen); rewrite Hser;
    by rewrite !printed_printed.
Qed.

Lemma run_timestamp_raises data e :
  open_error model_output_path w = None →
  SerializeToString onnx_model = Ok data →
  py_int (clock w) = Raise e →
  run = (Raise e,
         printed [saved_line model_output_path] (wrote model_output_path data at_export)).
Proof.
  intros Hopen Hser Hts. rewrite progress_lines_unfold.
  exec_to_split Hfile Hread Hshape; simpl in Hconv; rewrite Hsplit; simpl;
    rewrite Hfit, Hscore, Hconv; simpl;
    (rewrite py_open_no_error by exact Hopen); rewrite Hser, file_write_opened;
    simpl; rewrite Hts; by rewrite !printed_printed.
Qed.

Lemma run_metadata_open_fails data timestamp e :
  open_error model_output_path w = None →
  SerializeToString onnx_model = Ok data →
  py_int (clock w) = Ok timestamp →
  open_error metadata_output_path (wrote model_output_path data w) = Some e →
  run = (Raise e,
         printed [saved_line model_output_path] (wrote model_output_path data at_export)).
Proof.
  intros Hopen Hser Hts Hmeta. rewrite progress_lines_unfold.
  exec_to_split Hfile Hread Hshape; simpl in Hconv; rewrite Hsplit; simpl;
    rewrite Hfit, Hscore, Hconv; simpl;
    (rewrite py_open_no_error by exact Hopen); rewrite Hser, file_write_opened;
    simpl; rewrite Hts; simpl;
    (erewrite py_open_error by exact Hmeta); by rewrite !printed_printed.
Qed.

End Converted.
End Scored.
End Parsed.
End WaysOut.

(** ** Case analysis on a run *)

Section RunCases.
Context {L : Libs}.
Variables data_path model_output_path metadata_output_path : string.
Variable w : World.
Variable P : result unit → World → Prop.

#[local] Abbreviation run :=
  (train_model data_path model_output_path metadata_output_path w).

#[local] Abbreviation at_export raw X_train avg_score :=
  (printed (banner data_path ++ progress_lines raw X_train avg_score) w).

Hypothesis on_missing_input :
  files w !! data_path = None →
  P (Ok ()) (printed (banner data_path ++ missing_file_diagnostic data_path) w).
Hypothesis on_schema_mismatch : ∀ content raw,
  files w !! data_path = Some (File content) →
  read_csv content = Ok raw →
  shape1 raw ≠ length FEATURE_NAMES →
  P (Ok ()) (printed (banner data_path ++ schema_mismatch_diagnostic (shape1 raw)) w).
Hypothesis on_upstream_exception : ∀ e lines,
  raises_upstream data_path w e lines →
  P (Raise e) (printed (banner data_path ++ lines) w).
Hypothesis on_artifact_open_error : ∀ raw X_train avg_score onnx_model e,
  converts data_path w raw X_train avg_score onnx_model →
  open_error model_output_path w = Some e →
  P (Raise e) (at_export raw X_train avg_score).
Hypothesis on_serialization_error : ∀ raw X_train avg_score onnx_model e,
  converts data_path w raw X_train avg_score onnx_model →
  open_error model_output_path w = None →
  SerializeToString onnx_model = Raise e →
  P (Raise e) (opened model_output_path (at_export raw X_train avg_score)).
Hypothesis on_metadata_error : ∀ raw X_train avg_score onnx_model data e,
  converts data_path w raw X_train avg_score onnx_model →
  open_error model_output_path w = None →
  SerializeToString onnx_model = Ok data →
  py_int (clock w) = Raise e
  ∨ (∃ timestamp, py_int (clock w) = Ok timestamp)
    ∧ open_error metadata_output_path (wrote model_output_path data w) = Some e →
  P (Raise e)
    (printed [saved_line model_output_path]
       (wrote model_output_path data (at_export raw X_train avg_score))).
Hypothesis on_success : ∀ raw X_train avg_score onnx_model data timestamp,
  converts data_path w raw X_train avg_score onnx_model →
  open_error model_output_path w = None →
  SerializeToString onnx_model = Ok data →
  py_int (clock w) = Ok timestamp →
  open_error metadata_output_path (wrote model_output_path data w) = None →
  P (Ok ())
    (success_world data_path model_output_path metadata_output_path
       raw X_train avg_score data timestamp w).

(** Every run ends in one of the seven ways above. *)
Lemma run_cases : P run.1 run.2.
Proof.
  destruct (files w !! data_path) as [[content|]|] eqn:Hfile.
  2:{ rewrite run_directory by done. apply on_upstream_exception.
      by apply path_is_directory. }
  2:{ rewrite run_missing_input by done. by apply on_missing_input. }
  destruct (read_csv content) as [raw|e] eqn:Hread.
  2:{ erewrite run_parser_raises by done. apply on_upstream_exception.
      by eapply parser_raises. }
  destruct (decide (shape1 raw = length FEATURE_NAMES)) as [Hshape|Hshape].
  2:{ erewrite run_schema_mismatch by done. by eapply on_schema_mismatch. }
  destruct (train_test_split (cleaned raw) (3 # 10) 42)
    as [[X_train X_test]|e] eqn:Hsplit.
  2:{ erewrite run_split_raises by done. apply on_upstream_exception.
      by eapply split_raises. }
  destruct (fit forest X_train) as [model|e] eqn:Hfit.
  2:{ erewrite run_fit_raises by done. apply on_upstream_exception.
      by eapply fit_raises. }
  destruct (score_samples model X_test) as [scores_test|e] eqn:Hscore.
  2:{ erewrite run_score_raises by done. apply on_upstream_exception.
      by eapply score_raises. }
  destruct (convert_sklearn model initial_type 13 (uuid4_hex w)) as [onnx_model|e] eqn:Hconv.
  2:{ erewrite run_convert_raises by done. apply on_upstream_exception.
      by eapply converter_raises. }
  assert (Hc : converts data_path w raw X_train (np_mean scores_test) onnx_model)
    by (by econstructor).
  destruct (open_error model_output_path w) as [e|] eqn:Hopen.
  { erewrite run_artifact_open_fails by done. by eapply on_artifact_open_error. }
  destruct (SerializeToString onnx_model) as [data|e] eqn:Hser.
  2:{ erewrite run_serialize_raises by done. by eapply on_serialization_error. }
  destruct (py_int (clock w)) as [timestamp|e] eqn:Hts.
  2:{ erewrite run_timestamp_raises by done. eapply on_metadata_error; eauto. }
  destruct (open_error metadata_output_path (wrote model_output_path data w))
    as [e|] eqn:Hmeta.
  { erewrite run_metadata_open_fails by done. eapply on_metadata_error; eauto. }
  assert (Hmo : (model_output_path ∉ unwritable w)
                ∧ files w !! model_output_path ≠ Some Dir).
  { unfold open_error in Hopen. case_bool_decide; [done|].
    split; [done|]. by destruct (files w !! model_output_path) as [[]|]. }
  destruct Hmo as [Hmo Hmo_dir].
  assert (Hme : (metadata_output_path ∉ unwritable w)
                ∧ files w !! metadata_output_path ≠ Some Dir);
    [|destruct Hme as [Hme Hme_dir]].
  { unfold open_error in Hmeta. simpl in Hmeta. case_bool_decide; [done|].
    split; [done|]. intros Hdir.
    destruct (decide (metadata_output_path = model_output_path)) as [Heq|Hne].
    - by rewrite Heq in Hdir.
    - by rewrite lookup_insert_ne, Hdir in Hmeta. }
  erewrite run_success by done. by eapply on_success.
Qed.

End RunCases.

(** ** What a run leaves alone, and what a late failure leaves behind *)

Lemma open_error_None path w :
  open_error path w = None →
  (path ∉ unwritable w) ∧ files w !! path ≠ Some Dir.
Proof.
  unfold open_error. case_bool_decide; [done|].
  split; [done|]. by destruct (files w !! path) as [[]|].
Qed.

Section Frame.
Context {L : Libs}.
Variables data_path model_output_path metadata_output_path : string.
Variable w : World.

#[local] Abbreviation run :=
  (train_model data_path model_output_path metadata_output_path w).

(** X3. Whatever the outcome, a run changes no path of the file system
    other than the two output paths (the input file included, when it is
    not one of them), and it leaves alone what can be written and the
    clock. *)
Theorem only_output_paths_touched :
  let w' := (train_model data_path model_output_path metadata_output_path w).2 in
  (∀ path, path ≠ model_output_path → path ≠ metadata_output_path →
           files w' !! path = files w !! path)
  ∧ (data_path ≠ model_output_path → data_path ≠ metadata_output_path →
     files w' !! data_path = files w !! data_path)
  ∧ unwritable w' = unwritable w
  ∧ clock w' = clock w.
Proof.
  refine (run_cases data_path model_output_path metadata_output_path w
            (λ _ w',
               (∀ path, path ≠ model_output_path → path ≠ metadata_output_path →
                        files w' !! path = files w !! path)
               ∧ (data_path ≠ model_output_path → data_path ≠ metadata_output_path →
                  files w' !! data_path = files w !! data_path)
               ∧ unwritable w' = unwritable w
               ∧ clock w' = clock w) _ _ _ _ _ _ _);
    intros; split_and!; try done;
    intros; unfold success_world; simpl;
    by rewrite ?lookup_insert_ne.
Qed.

(** X4. An exception of the parser, the split, the fit, the scoring or
    the converter (and the operating system's, when the data path is a
    directory) is never caught or replaced: the run ends with that very
    exception, exit status 1, having printed the banner and the progress
    lines up to the failing call, and with no file opened or changed. *)
Theorem upstream_exceptions_propagate e lines :
  raises_upstream data_path w e lines →
  run.1 = Raise e
  ∧ exit_status run.1 = 1%Z
  ∧ stdout run.2 = stdout w ++ banner data_path ++ lines
  ∧ trace run.2 = trace w
  ∧ files run.2 = files w.
Proof.
  intros [Hdir ->|content Hfile Hread|content raw Hfile Hread Hshape Hsplit
         |content raw X_train X_test Hfile Hread Hshape Hsplit Hfit
         |content raw X_train X_test model Hfile Hread Hshape Hsplit Hfit Hscore
         |content raw X_train X_test model scores_test Hfile Hread Hshape Hsplit
            Hfit Hscore Hconv].
  - by rewrite run_directory.
  - by erewrite run_parser_raises.
  - by erewrite run_split_raises.
  - by erewrite run_fit_raises.
  - by erewrite run_score_raises.
  - by erewrite run_convert_raises.
Qed.

(** X5. When the artifact path cannot be opened for writing (no
    permission, no directory for it, or it is a directory), the run has
    already fitted, scored and converted the model: it ends with the
    error of [open], after the line about the conversion, and nothing is
    written; the metadata path is not even opened. *)
Theorem artifact_open_failure_writes_nothing raw X_train avg_score onnx_model e :
  converts data_path w raw X_train avg_score onnx_model →
  open_error model_output_path w = Some e →
  run.1 = Raise e
  ∧ last (stdout run.2) = Some "Converting model to ONNX format..."
  ∧ trace run.2 = trace w
  ∧ files run.2 = files w.
Proof.
  intros [content X_test model scores_test Hfile Hread Hshape Hsplit Hfit Hscore ->
            Hconv] Hopen.
  erewrite run_artifact_open_fails by done. split_and!; try done.
  unfold printed. cbn [stdout snd].
  by rewrite progress_lines_unfold, !app_assoc, last_app_cons.
Qed.

(** X6. When the metadata file cannot be opened (or [int(time.time())]
    raises), the artifact has already been written and stays: the run ends
    with that exception after the line saying the model was saved, the
    artifact file holds the full serialization, and there is no rollback. *)
Theorem metadata_failure_leaves_artifact raw X_train avg_score onnx_model data e :
  converts data_path w raw X_train avg_score onnx_model →
  open_error model_output_path w = None →
  SerializeToString onnx_model = Ok data →
  py_int (clock w) = Raise e
  ∨ (∃ timestamp, py_int (clock w) = Ok timestamp)
    ∧ open_error metadata_output_path (wrote model_output_path data w) = Some e →
  run.1 = Raise e
  ∧ last (stdout run.2) = Some (saved_line model_output_path)
  ∧ trace run.2
    = trace w ++ [Opened model_output_path; Written model_output_path data]
  ∧ files run.2 = <[model_output_path := File data]> (files w)
  ∧ files run.2 !! model_output_path = Some (File data).
Proof.
  intros [content X_test model scores_test Hfile Hread Hshape Hsplit Hfit Hscore ->
            Hconv] Hopen Hser [Hts|[[timestamp Hts] Hmeta]].
  - erewrite run_timestamp_raises by done. split_and!; try done.
    + unfold printed. cbn [stdout snd]. by rewrite last_snoc.
    + simpl. by rewrite lookup_insert_eq.
  - erewrite run_metadata_open_fails by done. split_and!; try done.
    + unfold printed. cbn [stdout snd]. by rewrite last_snoc.
    + simpl. by rewrite lookup_insert_eq.
Qed.

End Frame.

(** ** Fatal errors before the export *)

Section FatalErrors.
Context {L : Libs}.
Variables data_path model_output_path metadata_output_path : string.
Variable w : World.

#[local] Abbreviation run :=
  (train_model data_path model_output_path metadata_output_path w).

(** C5. On a fatal validation error (the input file is missing, or the
    parsed frame has not the schema's column count), a training error (an
    exception of the parser, the split, the fit or the scoring) or a
    serialization error (the converter cannot represent the forest as an
    ONNX graph and raises), no output file is written: the file system is
    as it was, at the artifact path and the metadata path in particular,
    no file has even been opened, so no partial artifact is on disk; and a
    diagnostic is produced, the printed FATAL ERROR report or the
    exception that reaches the interpreter. *)
Theorem failure_before_export_writes_nothing :
  files w !! data_path = None
  ∨ (∃ content raw,
       files w !! data_path = Some (File content)
       ∧ read_csv content = Ok raw
       ∧ shape1 raw ≠ length FEATURE_NAMES)
  ∨ (∃ e lines, raises_upstream data_path w e lines) →
  let w' := (train_model data_path model_output_path metadata_output_path w).2 in
  files w' = files w
  ∧ files w' !! model_output_path = files w !! model_output_path
  ∧ files w' !! metadata_output_path = files w !! metadata_output_path
  ∧ trace w' = trace w
  ∧ diagnosed data_path w run.1 w'.
Proof.
  intros [Hnone|[(content & raw & Hfile & Hread & Hshape)|(e & lines & Hraises)]] w';
    subst w'.
  - rewrite run_missing_input by done. split_and!; try done.
    right. split; [done|]. eexists. split; [reflexivity|by left].
  - rewrite (run_schema_mismatch _ _ _ _ content raw) by done.
    split_and!; try done.
    right. split; [done|]. eexists. split; [reflexivity|].
    right. by exists (shape1 raw).
  - assert (∃ lines', run = (Raise e, printed lines' w)) as [lines' ->].
    { destruct Hraises as
        [Hdir ->|content Hfile Hread|content raw Hfile Hread Hshape Hsplit
        |content raw X_train X_test Hfile Hread Hshape Hsplit Hfit
        |content raw X_train X_test model Hfile Hread Hshape Hsplit Hfit Hscore
        |content raw X_train X_test model scores_test Hfile Hread Hshape Hsplit
           Hfit Hscore Hconv]; eexists.
      - by apply run_directory.
      - by eapply run_parser_raises.
      - by eapply run_split_raises.
      - by eapply run_fit_raises.
      - by eapply run_score_raises.
      - by eapply run_convert_raises. }
    split_and!; try done. left. by exists e.
Qed.

End FatalErrors.

(** X7. When the same path is given for the model and for the metadata,
    a complete run writes the model to it and then truncates it for the
    metadata: the path ends up holding the JSON text, and the serialized
    model is gone. *)
Theorem shared_output_path_keeps_metadata {L : Libs} (data_path path : string)
    (w : World) raw X_train avg_score onnx_model data timestamp :
  converts data_path w raw X_train avg_score onnx_model →
  open_error path w = None →
  SerializeToString onnx_model = Ok data →
  py_int (clock w) = Ok timestamp →
  let json := json_dumps (metadata_record timestamp data_path (len X_train) avg_score) 4 in
  ∃ w', train_model data_path path path w = (Ok (), w')
    ∧ trace w' = trace w ++ [Opened path; Written path data; Opened path; Written path json]
    ∧ files w' = <[path := File json]> (files w)
    ∧ files w' !! path = Some (File json).
Proof.
  intros [content X_test model scores_test Hfile Hread Hshape Hsplit Hfit Hscore ->
            Hconv] Hopen Hser Hts json.
  destruct (open_error_None _ _ Hopen) as [Hpath Hdir].
  eexists. split; [by eapply run_success|].
  unfold success_world. simpl. split_and!.
  - by rewrite <- app_assoc.
  - by rewrite insert_insert_eq.
  - by rewrite lookup_insert_eq.
Qed.

(** ** What the log of a run tells *)

Ltac lines_differ H :=
  unfold small_dataset_warning, closing_line, training_line, saved_line,
    missing_file_diagnostic, schema_mismatch_diagnostic, nl in H;
  simpl in H; discriminate H.

Ltac not_among H :=
  repeat match type of H with
         | _ ∈ _ ++ _ => apply elem_of_app in H as [H|H]
         | _ ∈ _ :: _ => apply elem_of_cons in H as [H|H]
         | _ ∈ [] => by apply elem_of_nil in H
         | _ ∈ missing_file_diagnostic _ => unfold missing_file_diagnostic in H
         | _ ∈ schema_mismatch_diagnostic _ => unfold schema_mismatch_diagnostic in H
         | _ = _ => by (lines_differ H)
         end.

Lemma warning_in_size_report raw :
  small_dataset_warning ∈ size_report raw ↔ len (cleaned raw) < 200.
Proof.
  unfold size_report. destruct (len (cleaned raw) <? 200) eqn:Hlt.
  - apply Nat.ltb_lt in Hlt. split; [done|]. intros _.
    apply elem_of_app. right. apply elem_of_cons. by left.
  - apply Nat.ltb_ge in Hlt. split; [|lia]. intros H. not_among H.
Qed.

Lemma closing_line_not_in_size_report raw : closing_line ∉ size_report raw.
Proof.
  unfold size_report. intros H.
  destruct (len (cleaned raw) <? 200); not_among H.
Qed.

Lemma warning_in_progress_lines {L : Libs} raw X_train avg_score tail :
  small_dataset_warning ∉ tail →
  small_dataset_warning ∈ progress_lines raw X_train avg_score ++ tail
  ↔ len (cleaned raw) < 200.
Proof.
  intros Htail. rewrite progress_lines_unfold, <- warning_in_size_report.
  rewrite !elem_of_app. split; [|tauto].
  intros [[H|H]|H]; [done|not_among H|done].
Qed.

Lemma closing_line_not_in_progress_lines {L : Libs} raw X_train avg_score :
  closing_line ∉ progress_lines raw X_train avg_score.
Proof.
  rewrite progress_lines_unfold. intros H.
  apply elem_of_app in H as [H|H]; [by apply closing_line_not_in_size_report in H|].
  not_among H.
Qed.

Section Log.
Context {L : Libs}.
Variables data_path model_output_path metadata_output_path : string.
Variable w : World.

#[local] Abbreviation run :=
  (train_model data_path model_output_path metadata_output_path w).

Lemma validated_and_small_iff content raw :
  files w !! data_path = Some (File content) →
  read_csv content = Ok raw →
  shape1 raw = length FEATURE_NAMES →
  validated_and_small data_path w ↔ len (cleaned raw) < 200.
Proof.
  intros Hfile Hread Hshape. split.
  - intros (content' & raw' & Hfile' & Hread' & _ & Hsmall).
    rewrite Hfile in Hfile'. injection Hfile' as <-.
    rewrite Hread in Hread'. by injection Hread' as <-.
  - intros Hsmall. by exists content, raw.
Qed.

Lemma converts_small raw X_train avg_score onnx_model :
  converts data_path w raw X_train avg_score onnx_model →
  validated_and_small data_path w ↔ len (cleaned raw) < 200.
Proof. intros []. by eapply validated_and_small_iff. Qed.

(** X8. A run only adds to standard output, and the first two lines it
    adds are the banner.  Among the lines after the banner, the low-data
    warning appears exactly when the file parsed to a frame with the
    schema's 27 columns of which fewer than 200 rows survived the cleaning
    (199 rows: warning; 200 rows: none), however the run ends after
    that. *)
Theorem warning_printed_iff_small :
  ∃ lines,
    stdout run.2 = stdout w ++ banner data_path ++ lines
    ∧ (small_dataset_warning ∈ lines ↔ validated_and_small data_path w).
Proof.
  refine (run_cases data_path model_output_path metadata_output_path w
            (λ _ w', ∃ lines,
               stdout w' = stdout w ++ banner data_path ++ lines
               ∧ (small_dataset_warning ∈ lines ↔ validated_and_small data_path w))
            _ _ _ _ _ _ _).
  - intros Hfile. eexists. split; [reflexivity|]. split.
    + intros H. not_among H.
    + intros (? & ? & Hfile' & _). congruence.
  - intros content raw Hfile Hread Hshape. eexists. split; [reflexivity|]. split.
    + intros H. not_among H.
    + intros (content' & raw' & Hfile' & Hread' & Hshape' & _).
      rewrite Hfile in Hfile'. injection Hfile' as <-.
      rewrite Hread in Hread'. injection Hread' as <-. done.
  - intros e lines Hraises. exists lines. split; [reflexivity|].
    destruct Hraises
      as [Hdir _|content Hfile Hread|content raw Hfile Hread Hshape _
         |content raw X_train X_test Hfile Hread Hshape _ _
         |content raw X_train X_test model Hfile Hread Hshape _ _ _
         |content raw X_train X_test model scores_test Hfile Hread Hshape _ _ _ _].
    + split; [intros H; not_among H|]. intros (? & ? & Hfile' & _). congruence.
    + split; [intros H; not_among H|].
      intros (content' & raw' & Hfile' & Hread' & _).
      rewrite Hfile in Hfile'. injection Hfile' as <-. congruence.
    + by rewrite warning_in_size_report, (validated_and_small_iff _ _ Hfile Hread Hshape).
    + rewrite (validated_and_small_iff _ _ Hfile Hread Hshape),
        <- warning_in_size_report, elem_of_app.
      split; [|tauto]. intros [H|H]; [done|not_among H].
    + rewrite (validated_and_small_iff _ _ Hfile Hread Hshape),
        <- warning_in_size_report, elem_of_app.
      split; [|tauto]. intros [H|H]; [done|not_among H].
    + rewrite (validated_and_small_iff _ _ Hfile Hread Hshape).
      rewrite <- (app_nil_r (progress_lines _ _ _)).
      apply warning_in_progress_lines. by intros H%elem_of_nil.
  - intros raw X_train avg_score onnx_model e Hc _. eexists. split; [reflexivity|].
    rewrite (converts_small _ _ _ _ Hc).
    rewrite <- (app_nil_r (progress_lines _ _ _)).
    apply warning_in_progress_lines. by intros H%elem_of_nil.
  - intros raw X_train avg_score onnx_model e Hc _ _. eexists. split; [reflexivity|].
    rewrite (converts_small _ _ _ _ Hc).
    rewrite <- (app_nil_r (progress_lines _ _ _)).
    apply warning_in_progress_lines. by intros H%elem_of_nil.
  - intros raw X_train avg_score onnx_model data e Hc _ _ _.
    exists (progress_lines raw X_train avg_score ++ [saved_line model_output_path]).
    split; [unfold printed, wrote; cbn [stdout]; by rewrite <- !app_assoc|].
    rewrite (converts_small _ _ _ _ Hc).
    apply warning_in_progress_lines. intros H. not_among H.
  - intros raw X_train avg_score onnx_model data timestamp Hc _ _ _ _.
    exists (progress_lines raw X_train avg_score
            ++ [ saved_line model_output_path;
                 "  -> Model metadata saved to: " +:+ metadata_output_path;
                 closing_line ]).
    split; [unfold success_world, printed, wrote; cbn [stdout]; by rewrite <- !app_assoc|].
    rewrite (converts_small _ _ _ _ Hc).
    apply warning_in_progress_lines. intros H. not_among H.
Qed.

(** X9. The closing line "--- ML Training Pipeline Finished ---" is
    printed by exactly the runs that opened and wrote both files, the
    artifact first: a run that stops anywhere earlier, by a validation
    exit or by an exception, never prints it. *)
Theorem closing_line_iff_both_written :
  ∃ lines,
    stdout run.2 = stdout w ++ banner data_path ++ lines
    ∧ (closing_line ∈ lines
       ↔ ∃ data json,
           trace run.2
           = trace w ++ [ Opened model_output_path;
                          Written model_output_path data;
                          Opened metadata_output_path;
                          Written metadata_output_path json ])
    ∧ (closing_line ∈ lines → run.1 = Ok ()).
Proof.
  refine (run_cases data_path model_output_path metadata_output_path w
            (λ r w', ∃ lines,
               stdout w' = stdout w ++ banner data_path ++ lines
               ∧ (closing_line ∈ lines
                  ↔ ∃ data json,
                      trace w'
                      = trace w ++ [ Opened model_output_path;
                                     Written model_output_path data;
                                     Opened metadata_output_path;
                                     Written metadata_output_path json ])
               ∧ (closing_line ∈ lines → r = Ok ()))
            _ _ _ _ _ _ _).
  - intros _. eexists. split; [reflexivity|]. split; [split|]; [| |done].
    + intros H. not_among H.
    + intros (? & ? & Ht). apply (f_equal length) in Ht.
      rewrite length_app in Ht. simpl in Ht. lia.
  - intros content raw _ _ _. eexists. split; [reflexivity|].
    split; [split|]; [| |done].
    + intros H. not_among H.
    + intros (? & ? & Ht). apply (f_equal length) in Ht.
      rewrite length_app in Ht. simpl in Ht. lia.
  - intros e lines Hraises. exists lines. split; [reflexivity|].
    assert (Hout : closing_line ∉ lines).
    { destruct Hraises; intros Hin;
        try (apply elem_of_app in Hin as [Hin|Hin];
             [by apply closing_line_not_in_size_report in Hin|]);
        try (by apply closing_line_not_in_size_report in Hin);
        try (by apply closing_line_not_in_progress_lines in Hin);
        not_among Hin. }
    split; [split|]; [done| |done].
    intros (? & ? & Ht). apply (f_equal length) in Ht.
    rewrite length_app in Ht. simpl in Ht. lia.
  - intros raw X_train avg_score onnx_model e _ _. eexists. split; [reflexivity|].
    split; [split|].
    + by intros H%closing_line_not_in_progress_lines.
    + intros (? & ? & Ht). apply (f_equal length) in Ht.
      rewrite length_app in Ht. simpl in Ht. lia.
    + by intros H%closing_line_not_in_progress_lines.
  - intros raw X_train avg_score onnx_model e _ _ _. eexists. split; [reflexivity|].
    split; [split|].
    + by intros H%closing_line_not_in_progress_lines.
    + intros (? & ? & Ht). simpl in Ht. by apply app_inv_head in Ht.
    + by intros H%closing_line_not_in_progress_lines.
  - intros raw X_train avg_score onnx_model data e _ _ _ _.
    exists (progress_lines raw X_train avg_score ++ [saved_line model_output_path]).
    split; [unfold printed, wrote; cbn [stdout]; by rewrite <- !app_assoc|].
    assert (Hout : closing_line
                   ∉ progress_lines raw X_train avg_score ++ [saved_line model_output_path]).
    { intros H. apply elem_of_app in H as [H|H];
        [by apply closing_line_not_in_progress_lines in H|not_among H]. }
    split; [split|]; [done| |done].
    intros (? & ? & Ht). simpl in Ht. by apply app_inv_head in Ht.
  - intros raw X_train avg_score onnx_model data timestamp _ _ _ _ _.
    exists (progress_lines raw X_train avg_score
            ++ [ saved_line model_output_path;
                 "  -> Model metadata saved to: " +:+ metadata_output_path;
                 closing_line ]).
    split; [unfold success_world, printed, wrote; cbn [stdout]; by rewrite <- !app_assoc|].
    split; [split|]; [| |done].
    + intros _. eexists _, _. unfold success_world. simpl. by rewrite <- app_assoc.
    + intros _. apply elem_of_app. right. rewrite !elem_of_cons. tauto.
Qed.

End Log.

(** ** The further properties on concrete runs *)

Lemma demo_converts (w : World) :
  files w !! DATA_PATH = Some (File "0,0,0") →
  converts (L := demo_libs (Ok (demo_frame 27 10)) true) DATA_PATH w
    (demo_frame 27 10) (demo_pick (rev (seq 0 7))) zero
    (demo_pick (rev (seq 0 7)), initial_type).
Proof.
  intros Hfile.
  apply (converts_intro (L := demo_libs (Ok (demo_frame 27 10)) true)
           _ _ _ _ _ _ "0,0,0" (demo_pick (rev (seq 7 3)))
           (demo_pick (rev (seq 0 7)))
           (map (λ _, zero) (rows (demo_pick (rev (seq 7 3))))));
    try (vm_compute; reflexivity).
  exact Hfile.
Qed.

Lemma only_output_paths_touched_witness :
  files (main (L := demo_libs (Ok (demo_frame 27 10)) true) demo_world).2 !! DATA_PATH
  = Some (File "0,0,0").
Proof.
  destruct (only_output_paths_touched (L := demo_libs (Ok (demo_frame 27 10)) true)
              DATA_PATH MODEL_PATH METADATA_PATH demo_world) as (_ & Hdata & _).
  unfold main. rewrite Hdata; [reflexivity|discriminate|discriminate].
Defined.

Lemma upstream_exceptions_propagate_witness :
  (main (L := demo_libs failing_parse true) demo_world).1
  = Raise (Exn "EmptyDataError" "No columns to parse from file")
  ∧ exit_status (main (L := demo_libs failing_parse true) demo_world).1 = 1%Z
  ∧ stdout (main (L := demo_libs failing_parse true) demo_world).2
    = stdout demo_world ++ banner DATA_PATH ++ []
  ∧ trace (main (L := demo_libs failing_parse true) demo_world).2 = trace demo_world
  ∧ files (main (L := demo_libs failing_parse true) demo_world).2 = files demo_world.
Proof.
  apply (upstream_exceptions_propagate (L := demo_libs failing_parse true)
           DATA_PATH MODEL_PATH METADATA_PATH demo_world).
  apply (parser_raises (L := demo_libs failing_parse true) _ _ _ "0,0,0").
  - vm_compute. reflexivity.
  - reflexivity.
Defined.

Lemma artifact_open_failure_writes_nothing_witness :
  (main (L := demo_libs (Ok (demo_frame 27 10)) true) artifact_directory_world).1
  = Raise (Exn "IsADirectoryError" MODEL_PATH)
  ∧ last (stdout (main (L := demo_libs (Ok (demo_frame 27 10)) true)
                    artifact_directory_world).2)
    = Some "Converting model to ONNX format..."
  ∧ trace (main (L := demo_libs (Ok (demo_frame 27 10)) true)
             artifact_directory_world).2
    = trace artifact_directory_world
  ∧ files (main (L := demo_libs (Ok (demo_frame 27 10)) true)
             artifact_directory_world).2
    = files artifact_directory_world.
Proof.
  apply (artifact_open_failure_writes_nothing
           (L := demo_libs (Ok (demo_frame 27 10)) true)
           DATA_PATH MODEL_PATH METADATA_PATH artifact_directory_world
           (demo_frame 27 10) (demo_pick (rev (seq 0 7))) zero
           (demo_pick (rev (seq 0 7)), initial_type)).
  - apply demo_converts. vm_compute. reflexivity.
  - vm_compute. reflexivity.
Defined.

Lemma metadata_failure_leaves_artifact_witness :
  (main (L := demo_libs (Ok (demo_frame 27 10)) true) locked_metadata_world).1
  = Raise (Exn "OSError" METADATA_PATH)
  ∧ files (main (L := demo_libs (Ok (demo_frame 27 10)) true)
             locked_metadata_world).2 !! MODEL_PATH
    = Some (File "onnx").
Proof.
  destruct (metadata_failure_leaves_artifact
              (L := demo_libs (Ok (demo_frame 27 10)) true)
              DATA_PATH MODEL_PATH METADATA_PATH locked_metadata_world
              (demo_frame 27 10) (demo_pick (rev (seq 0 7))) zero
              (demo_pick (rev (seq 0 7)), initial_type) "onnx"
              (Exn "OSError" METADATA_PATH))
    as (Hout & _ & _ & _ & Hfile).
  - apply demo_converts. vm_compute. reflexivity.
  - vm_compute. reflexivity.
  - reflexivity.
  - right. split.
    + exists 1811939328%Z. vm_compute. reflexivity.
    + vm_compute. reflexivity.
  - split; [exact Hout|exact Hfile].
Defined.

Lemma shared_output_path_keeps_metadata_witness :
  ∃ w',
    train_model (L := demo_libs (Ok (demo_frame 27 10)) true)
      DATA_PATH MODEL_PATH MODEL_PATH demo_world = (Ok (), w')
    ∧ files w' !! MODEL_PATH
      = Some (File "model_type,training_timestamp_utc,training_data_path,training_samples,num_features,feature_names_ordered,evaluation_metrics").
Proof.
  destruct (shared_output_path_keeps_metadata
              (L := demo_libs (Ok (demo_frame 27 10)) true)
              DATA_PATH MODEL_PATH demo_world
              (demo_frame 27 10) (demo_pick (rev (seq 0 7))) zero
              (demo_pick (rev (seq 0 7)), initial_type) "onnx" 1811939328%Z)
    as (w' & Hrun & _ & _ & Hfile).
  - apply demo_converts. vm_compute. reflexivity.
  - vm_compute. reflexivity.
  - reflexivity.
  - vm_compute. reflexivity.
  - exists w'. split; [exact Hrun|exact Hfile].
Defined.

(** ** The claims that do not hold as stated, on concrete inputs *)

(** Three fields of a column that the parser kept as text, because one of
    them does not fit a double.  The Cleaner drops nothing, although a
    row holds a value that reads as an infinity: the size is not the
    original one minus the number of such rows, and such a row is among
    the rows that survive. *)
Lemma text_infinity_survives_cleaning :
  let df := Frame [LInt 0] [Row 0 [Text "0.25"]; Row 1 [Text "inf"];
                            Row 2 [Text "1e400"]] in
  clean df = df
  ∧ 0 < count_holding_non_finite df
  ∧ len (clean df) ≠ len df - count_holding_non_finite df
  ∧ ∃ r, r ∈ rows (clean df) ∧ existsb holds_non_finite_value (cells r) = true.
Proof.
  split_and!.
  - reflexivity.
  - vm_compute. lia.
  - vm_compute. lia.
  - exists (Row 1 [Text "inf"]). split; [|reflexivity].
    vm_compute. apply elem_of_cons. right. apply elem_of_cons. by left.
Qed.

(** A Dataset of one row: the TrainingSet would be empty, and it is the
    split that raises, a [ValueError] of scikit-learn, before the forest
    is built.  The fit is never called; in this library it would not fail
    on any frame, and the run fails all the same. *)
Lemma empty_training_set_fails_at_split :
  n_train (3 # 10) (len (cleaned (demo_frame 27 1))) = 0
  ∧ (∀ X, fit (Libs := demo_libs (Ok (demo_frame 27 1)) true) forest X = Ok X)
  ∧ train_test_split (L := demo_libs (Ok (demo_frame 27 1)) true)
      (cleaned (demo_frame 27 1)) (3 # 10) 42
    = Raise (Exn "ValueError"
               "With n_samples=1, test_size=0.3 and train_size=None, the resulting train set will be empty. Adjust any of the aforementioned parameters.")
  ∧ (train_model (L := demo_libs (Ok (demo_frame 27 1)) true)
       DATA_PATH MODEL_PATH METADATA_PATH demo_world).1
    = Raise (Exn "ValueError"
               "With n_samples=1, test_size=0.3 and train_size=None, the resulting train set will be empty. Adjust any of the aforementioned parameters.").
Proof. split_and!; [vm_compute; reflexivity|done|vm_compute; reflexivity..]. Qed.

(** ** A fatal error before the export, on a concrete run *)

(** A forest the converter does not support: the run ends with the
    converter's exception, and neither output path exists afterwards. *)
Lemma failure_before_export_writes_nothing_witness :
  files (main (L := demo_libs (Ok (demo_frame 27 10)) false) demo_world).2
  = files demo_world
  ∧ files (main (L := demo_libs (Ok (demo_frame 27 10)) false) demo_world).2
      !! MODEL_PATH = None
  ∧ files (main (L := demo_libs (Ok (demo_frame 27 10)) false) demo_world).2
      !! METADATA_PATH = None
  ∧ trace (main (L := demo_libs (Ok (demo_frame 27 10)) false) demo_world).2 = []
  ∧ diagnosed DATA_PATH demo_world
      (main (L := demo_libs (Ok (demo_frame 27 10)) false) demo_world).1
      (main (L := demo_libs (Ok (demo_frame 27 10)) false) demo_world).2.
Proof.
  apply (failure_before_export_writes_nothing
           (L := demo_libs (Ok (demo_frame 27 10)) false)
           DATA_PATH MODEL_PATH METADATA_PATH demo_world).
  right. right. eexists _, _.
  apply (converter_raises (L := demo_libs (Ok (demo_frame 27 10)) false)
           _ _ _ "0,0,0" (demo_frame 27 10) (demo_pick (rev (seq 0 7)))
           (demo_pick (rev (seq 7 3))) (demo_pick (rev (seq 0 7)))
           (map (λ _, zero) (rows (demo_pick (rev (seq 7 3))))));
    vm_compute; reflexivity.
Defined.
